(** * Live chain-event monitor of go-eth-demo: a shallow embedding

    The development follows the three monitor programs of
    [examples/06-subscribe]:

    - [advanced_block_monitor.go]  (module [Monitor]):  the [BlockMonitor]
      with its [MonitorStats], history window, alert rules and reports;
    - [block_subscribe.go]         (module [Subscribe]): the basic
      subscriber with [BlockStats] and its re-subscription on error;
    - the polling monitor          (module [Poll]):      the ticker loop
      that walks from the last seen block number to the current one.

    Go's machine integers are integers of [Z] with the wrap-around written
    out, [*big.Int] is [Z], [time.Time] and [time.Duration] follow the
    documented behaviour of package [time], [float64] is the kernel's
    binary64, and a panic is [None] in the [Panics] monad.  What a run
    prints is kept as the list of its [Printf] calls with their
    arguments; the node is the environment, and what it answers to each
    call is an argument of the function that makes the call. *)

From Stdlib Require Import ZArith List Lia Bool String.
From Stdlib Require Import Floats.PrimFloat Numbers.Cyclic.Int63.Uint63.
From Stdlib Require Import Sorting.Permutation Sorting.Sorted.
Import ListNotations.
Open Scope Z_scope.

(* ================================================================== *)
(** ** Go's integers                                                   *)
(* ================================================================== *)

Module GoInt.

Definition maxUint64 : Z := 2 ^ 64 - 1.
Definition maxInt64 : Z := 2 ^ 63 - 1.
Definition minInt64 : Z := - 2 ^ 63.

(** Arithmetic on [uint64] and [int64] is modulo [2^64]. *)
Definition wrap_uint64 (z : Z) : Z := z mod 2 ^ 64.
Definition wrap_int64 (z : Z) : Z := (z + 2 ^ 63) mod 2 ^ 64 - 2 ^ 63.

(** The conversion [int64(x)] of a [uint64]. *)
Definition int64_of_uint64 (x : Z) : Z := wrap_int64 x.

Definition is_uint64 (z : Z) : Prop := 0 <= z <= maxUint64.
Definition is_int64 (z : Z) : Prop := minInt64 <= z <= maxInt64.

(** [len(s)], a Go [int]. *)
Definition len {A : Type} (s : list A) : Z := Z.of_nat (List.length s).

End GoInt.

(* ================================================================== *)
(** ** Panics                                                          *)
(* ================================================================== *)

(** A computation that may panic: [None] is the panic. *)
Definition Panics (A : Type) : Type := option A.

Definition ret {A} (a : A) : Panics A := Some a.

Definition bind {A B} (c : Panics A) (k : A -> Panics B) : Panics B :=
  match c with
  | Some a => k a
  | None => None
  end.

Notation "x <- c ;; k" := (bind c (fun x => k))
  (at level 61, c at next level, right associativity).

(** The result of a call that returns [(value, error)]. *)
Inductive Result (A : Type) : Type :=
| Ok (a : A)
| Err (msg : string).

Arguments Ok {A} a.
Arguments Err {A} msg.

(* ================================================================== *)
(** ** math/big                                                        *)
(* ================================================================== *)

Module Big.

(** [z.Div(x, y)]: Euclidean division; it panics when [y] is zero. *)
Definition Div (x y : Z) : Panics Z :=
  if y =? 0 then None
  else if 0 <? y then Some (x / y)
  else Some (- (x / (- y))).

(** [x.Uint64()]: the low 64 bits of the magnitude of [x]. *)
Definition Uint64 (x : Z) : Z := Z.abs x mod 2 ^ 64.

End Big.

(* ================================================================== *)
(** ** float64                                                         *)
(* ================================================================== *)

Module F64.

(** [float64(x)] of a [uint64]: exact below [2^63]; above, the value is
    halved with its lowest bit kept sticky, converted and doubled, which
    rounds to nearest-even as the conversion does. *)
Definition of_uint64 (x : Z) : float :=
  if x <? 2 ^ 63 then PrimFloat.of_uint63 (Uint63.of_Z x)
  else PrimFloat.mul
         (PrimFloat.of_uint63 (Uint63.of_Z (Z.lor (Z.shiftr x 1) (Z.land x 1))))
         (PrimFloat.of_uint63 2%uint63).

(** [float64(x)] of an [int64] or [int]. *)
Definition of_int64 (x : Z) : float :=
  if x <? 0 then PrimFloat.opp (of_uint64 (- x)) else of_uint64 x.

End F64.

(* ================================================================== *)
(** ** package time                                                    *)
(* ================================================================== *)

Module GoTime.
Import GoInt.

(** A [Duration] is an [int64] count of nanoseconds. *)
Definition Duration : Type := Z.

Definition Millisecond : Duration := 1000000.
Definition Second : Duration := 1000000000.
Definition Minute : Duration := 60 * Second.
Definition Hour : Duration := 60 * Minute.

Definition minDuration : Duration := minInt64.
Definition maxDuration : Duration := maxInt64.

(** A result that does not fit a [Duration] is replaced by the nearest
    bound. *)
Definition saturate (z : Z) : Duration :=
  if z <? minDuration then minDuration
  else if maxDuration <? z then maxDuration
  else z.

(** A [Time] without monotonic reading: seconds since January 1 of year
    1 ([ext], an [int64]) and nanoseconds within the second. *)
Record Time : Type := mkTime { ext : Z; nsec : Z }.

(** The zero [Time], the value of an uninitialised field. *)
Definition zeroTime : Time := mkTime 0 0.

Definition unixToInternal : Z := 62135596800.

(** [time.Unix(sec, 0)]. *)
Definition Unix (sec : Z) : Time := mkTime (wrap_int64 (sec + unixToInternal)) 0.

(** [t.IsZero()]. *)
Definition IsZero (t : Time) : bool := (ext t =? 0) && (nsec t =? 0).

(** [t.Sub(u)]: the duration [t - u], saturated. *)
Definition Sub (t u : Time) : Duration :=
  saturate ((ext t - ext u) * Second + (nsec t - nsec u)).

(** [time.Since(t)] is [time.Now().Sub(t)]; [now] is the clock reading. *)
Definition Since (now t : Time) : Duration := Sub now t.

(** [d.Round(m)]: the nearest multiple of [m], halves away from zero,
    saturated. *)
Definition Round (d m : Duration) : Duration :=
  if m <=? 0 then d
  else
    let r := Z.rem d m in
    if d <? 0 then
      if 2 * (- r) <? m then d - r else saturate (d - m - r)
    else
      if 2 * r <? m then d - r else saturate (d + m - r).

(** [d.Seconds()], [d.Minutes()] and [d.Hours()]. *)
Definition unitsOf (unit : Duration) (d : Duration) : float :=
  PrimFloat.add (F64.of_int64 (Z.quot d unit))
    (PrimFloat.div (F64.of_int64 (Z.rem d unit)) (F64.of_int64 unit)).

Definition Seconds : Duration -> float := unitsOf Second.
Definition Minutes : Duration -> float := unitsOf Minute.
Definition Hours : Duration -> float := unitsOf Hour.

End GoTime.

(* ================================================================== *)
(** ** fmt                                                             *)
(* ================================================================== *)

(** A formatted text is the format string with its arguments, as they are
    handed to [fmt.Sprintf]; a nested [Sprintf] is an argument of its own,
    and so is a time with the layout it is formatted in and a [big.Float]
    quotient with its two operands. *)
Inductive Text : Type :=
| Sprintf (format : string) (args : list Arg)
with Arg : Type :=
| AInt (z : Z)
| AFloat (f : float)
| AString (s : string)
| ADuration (d : GoTime.Duration)
| ATime (t : GoTime.Time) (layout : string)
| ABigFloat (numerator denominator : Z)
| AText (t : Text).

(** What a run does to the outside world, in order: a line on the console
    ([fmt.Printf], [fmt.Println]), a line in the log ([log.Printf]), a
    fatal log line that ends the process ([log.Fatalf]), a subscription
    being opened or released, and a pause. *)
Inductive Effect : Type :=
| Printf (format : string) (args : list Arg)
| Logf (format : string) (args : list Arg)
| Fatalf (format : string) (args : list Arg)
| SubscribeNewHead
| Unsubscribe
| Sleep (d : GoTime.Duration).

Definition Println (s : string) : Effect := Printf s [].

(** Lines of output: neither a subscription nor a pause. *)
Definition isLine (e : Effect) : Prop :=
  match e with
  | Printf _ _ | Logf _ _ => True
  | _ => False
  end.

(* ================================================================== *)
(** ** go-ethereum: core/types                                         *)
(* ================================================================== *)

Module Types.

(** A transaction, as far as the monitors read it: [tx.GasPrice()] (a
    [*big.Int], [None] for nil) and [tx.To()] ([None] for a contract
    creation). *)
Record Transaction : Type := mkTransaction {
  GasPrice : option Z;
  To : option string
}.

Record Header : Type := mkHeader {
  Number : Z;          (* *big.Int *)
  Time : Z;            (* uint64 *)
  GasUsed : Z;         (* uint64 *)
  GasLimit : Z;        (* uint64 *)
  Hash : string;       (* header.Hash().Hex() *)
  Coinbase : string    (* header.Coinbase.Hex() *)
}.

Record Block : Type := mkBlock {
  BlockHeader : Header;
  Transactions : list Transaction
}.

End Types.

(* ================================================================== *)
(** ** The node, seen from a subscriber                                *)
(* ================================================================== *)

(** What the [select] of a subscription loop receives, in the order it
    receives it: an error of the subscription, a header together with the
    result of fetching its block, or the cancellation of the context. *)
Inductive SubEvent : Type :=
| ErrEvent (msg : string)
| HeaderEvent (header : Types.Header) (fetched : Result Types.Block)
| DoneEvent.

(** How a subscription loop ends: the process is killed by [log.Fatalf],
    the subscription failed, the context was cancelled, or the loop is
    still waiting in its [select] when the events are used up. *)
Inductive Exit : Type :=
| ExitFatal
| ExitSubscriptionError
| ExitContextDone
| StillWaiting.

(* ================================================================== *)
(** ** Formatting helpers                                              *)
(* ================================================================== *)

(** [formatGas], [formatGwei] and [formatDuration]: every program of the
    directory carries its own copy, with the same text. *)
Module Format.
Import GoTime.

Definition formatGas (gas : Z) : Text :=
  if 1000000 <=? gas then
    Sprintf "%.1fM" [AFloat (PrimFloat.div (F64.of_uint64 gas) (F64.of_int64 1000000))]
  else if 1000 <=? gas then
    Sprintf "%.1fK" [AFloat (PrimFloat.div (F64.of_uint64 gas) (F64.of_int64 1000))]
  else Sprintf "%d" [AInt gas].

(** [formatGwei]: the quotient of [wei] by [1e9] as a [big.Float], kept
    as the pair of its operands. *)
Definition formatGwei (wei : Z) : Text :=
  Sprintf "%.2f" [ABigFloat wei 1000000000].

Definition formatDuration (d : Duration) : Text :=
  if PrimFloat.leb (F64.of_int64 1) (Hours d) then
    Sprintf "%.1f小时" [AFloat (Hours d)]
  else if PrimFloat.leb (F64.of_int64 1) (Minutes d) then
    Sprintf "%.1f分钟" [AFloat (Minutes d)]
  else Sprintf "%.1f秒" [AFloat (Seconds d)].

End Format.

(* ================================================================== *)
(** ** advanced_block_monitor.go                                       *)
(* ================================================================== *)

Module Monitor.
Import GoInt GoTime Format.

Record MonitorStats : Type := mkMonitorStats {
  StartTime : Time;
  BlockCount : Z;              (* int64 *)
  TotalTxs : Z;                (* int64 *)
  TotalGasUsed : Z;            (* *big.Int *)
  MaxTxsPerBlock : Z;          (* int *)
  MinTxsPerBlock : Z;          (* int *)
  MaxGasUsage : Z;             (* uint64 *)
  MinGasUsage : Z;             (* uint64 *)
  AverageBlockTime : Duration;
  LastBlockTime : Time
}.

Record BlockInfo : Type := mkBlockInfo {
  Number : Z;                  (* uint64 *)
  Hash : string;
  Timestamp : Time;
  TxCount : Z;                 (* int *)
  GasUsed : Z;                 (* uint64 *)
  GasLimit : Z;                (* uint64 *)
  GasPrice : Z;                (* *big.Int *)
  BlockTime : Duration;
  Miner : string
}.

(** A rule: its condition and its message are functions of the record and
    of the statistics, which they read and do not change, as the rules of
    [SetupAlertRules] do. *)
Record AlertRule : Type := mkAlertRule {
  Name : string;
  Condition : BlockInfo -> MonitorStats -> bool;
  Message : BlockInfo -> MonitorStats -> Text
}.

(** The monitor; [cancelled] is the state of its context [ctx], which
    [cancel] closes.  The client is the environment: the result of each
    of its calls is an input of the function that makes the call. *)
Record BlockMonitor : Type := mkBlockMonitor {
  cancelled : bool;
  stats : MonitorStats;
  alertRules : list AlertRule;
  blockHistory : list BlockInfo
}.

(** The capacity that [NewBlockMonitor] reserves and [addToHistory]
    keeps. *)
Definition historyCapacity : Z := 100.

(** [NewBlockMonitor], once the dial has succeeded; [now] is
    [time.Now()]. *)
Definition NewBlockMonitor (now : Time) : BlockMonitor :=
  {| cancelled := false;
     stats := {| StartTime := now;
                 BlockCount := 0;
                 TotalTxs := 0;
                 TotalGasUsed := 0;
                 MaxTxsPerBlock := 0;
                 MinTxsPerBlock := 999999;
                 MaxGasUsage := 0;
                 MinGasUsage := wrap_uint64 (Z.lnot 0);
                 AverageBlockTime := 0;
                 LastBlockTime := zeroTime |};
     alertRules := [];
     blockHistory := [] |}.

(** [float64(block.GasUsed)/float64(block.GasLimit)]. *)
Definition gasRatio (block : BlockInfo) : float :=
  PrimFloat.div (F64.of_uint64 (GasUsed block)) (F64.of_uint64 (GasLimit block)).

Definition builtinRules : list AlertRule :=
  [ {| Name := "高交易量区块";
       Condition := fun block _ => 200 <? TxCount block;
       Message := fun block _ =>
         Sprintf "🔥 高交易量区块 #%d: %d 笔交易"
                 [AInt (Number block); AInt (TxCount block)] |};
    {| Name := "高Gas使用率";
       Condition := fun block _ =>   (* the ratio > 0.95 *)
         PrimFloat.ltb 0x1.e666666666666p-1%float (gasRatio block);
       Message := fun block _ =>
         let usage := PrimFloat.mul (gasRatio block) (F64.of_int64 100) in
         Sprintf "⚡ 高Gas使用率区块 #%d: %.2f%%"
                 [AInt (Number block); AFloat usage] |};
    {| Name := "长区块间隔";
       Condition := fun block _ => 20 * Second <? BlockTime block;
       Message := fun block _ =>
         Sprintf "⏰ 长区块间隔 #%d: %s"
                 [AInt (Number block); ADuration (BlockTime block)] |};
    {| Name := "空区块";
       Condition := fun block _ => TxCount block =? 0;
       Message := fun block _ =>
         Sprintf "📭 空区块 #%d: 无交易" [AInt (Number block)] |} ].

Definition SetupAlertRules (m : BlockMonitor) : BlockMonitor :=
  {| cancelled := cancelled m;
     stats := stats m;
     alertRules := builtinRules;
     blockHistory := blockHistory m |}.

(** The loop of [calculateAverageGasPrice]: [total] and [count] after
    the transactions [txs].  [count] is a Go [int] that never exceeds
    [len(txs)]; [int64(count)] is [count]. *)
Fixpoint sumGasPrices (txs : list Types.Transaction) (total count : Z) : Z * Z :=
  match txs with
  | [] => (total, count)
  | tx :: rest =>
      match Types.GasPrice tx with
      | Some gasPrice => sumGasPrices rest (total + gasPrice) (count + 1)
      | None => sumGasPrices rest total count
      end
  end.

Definition calculateAverageGasPrice (txs : list Types.Transaction) : Panics Z :=
  if len txs =? 0 then ret 0
  else
    let '(total, count) := sumGasPrices txs 0 0 in
    if count =? 0 then ret 0
    else Big.Div total count.

(** The loop of [updateStats] over the history: the sum of the positive
    block times and their number. *)
Fixpoint sumBlockTimes (history : list BlockInfo) (totalTime : Duration) (count : Z)
  : Duration * Z :=
  match history with
  | [] => (totalTime, count)
  | b :: rest =>
      if 0 <? BlockTime b
      then sumBlockTimes rest (wrap_int64 (totalTime + BlockTime b)) (count + 1)
      else sumBlockTimes rest totalTime count
  end.

Definition updateStats (m : BlockMonitor) (block : BlockInfo) : BlockMonitor :=
  let s := stats m in
  let blockCount := wrap_int64 (BlockCount s + 1) in
  let average :=
    if (1 <? blockCount) && (0 <? len (blockHistory m)) then
      let '(totalTime, count) := sumBlockTimes (blockHistory m) 0 0 in
      if 0 <? count then wrap_int64 (Z.quot totalTime count)
      else AverageBlockTime s
    else AverageBlockTime s in
  {| cancelled := cancelled m;
     stats :=
       {| StartTime := StartTime s;
          BlockCount := blockCount;
          TotalTxs := wrap_int64 (TotalTxs s + TxCount block);
          TotalGasUsed := TotalGasUsed s + int64_of_uint64 (GasUsed block);
          MaxTxsPerBlock :=
            if MaxTxsPerBlock s <? TxCount block then TxCount block
            else MaxTxsPerBlock s;
          MinTxsPerBlock :=
            if TxCount block <? MinTxsPerBlock s then TxCount block
            else MinTxsPerBlock s;
          MaxGasUsage :=
            if MaxGasUsage s <? GasUsed block then GasUsed block
            else MaxGasUsage s;
          MinGasUsage :=
            if GasUsed block <? MinGasUsage s then GasUsed block
            else MinGasUsage s;
          AverageBlockTime := average;
          LastBlockTime := LastBlockTime s |};
     alertRules := alertRules m;
     blockHistory := blockHistory m |}.

(** [addToHistory] for a window of [capacity] records: append, then drop
    the oldest record when the window has grown past the capacity. *)
Definition addToWindow (capacity : Z) (history : list BlockInfo) (block : BlockInfo)
  : list BlockInfo :=
  let history' := history ++ [block] in
  if capacity <? len history' then tl history' else history'.

Definition addToHistory (m : BlockMonitor) (block : BlockInfo) : BlockMonitor :=
  {| cancelled := cancelled m;
     stats := stats m;
     alertRules := alertRules m;
     blockHistory := addToWindow historyCapacity (blockHistory m) block |}.

Definition displayBlockInfo (block : BlockInfo) : list Effect :=
  [ Printf "\n🆕 区块 #%d\n" [AInt (Number block)];
    Printf "时间: %s\n" [ATime (Timestamp block) "15:04:05"];
    Printf "交易: %d 笔\n" [AInt (TxCount block)];
    Printf "Gas: %s/%s (%.1f%%)\n"
           [AText (formatGas (GasUsed block)); AText (formatGas (GasLimit block));
            AFloat (PrimFloat.mul (gasRatio block) (F64.of_int64 100))] ]
  ++ (if 0 <? GasPrice block
      then [Printf "平均Gas价格: %s Gwei\n" [AText (formatGwei (GasPrice block))]]
      else [])
  ++ (if 0 <? BlockTime block
      then [Printf "区块间隔: %s\n" [ADuration (Round (BlockTime block) Millisecond)]]
      else []).

(** The loop of [checkAlerts] over the rules that are left. *)
Fixpoint checkRules (rules : list AlertRule) (block : BlockInfo) (s : MonitorStats)
  : list Effect :=
  match rules with
  | [] => []
  | rule :: rest =>
      (if Condition rule block s
       then [Printf "🚨 %s\n" [AText (Message rule block s)]]
       else [])
      ++ checkRules rest block s
  end.

Definition checkAlerts (m : BlockMonitor) (block : BlockInfo) : list Effect :=
  checkRules (alertRules m) block (stats m).

Definition setLastBlockTime (m : BlockMonitor) (t : Time) : BlockMonitor :=
  let s := stats m in
  {| cancelled := cancelled m;
     stats :=
       {| StartTime := StartTime s;
          BlockCount := BlockCount s;
          TotalTxs := TotalTxs s;
          TotalGasUsed := TotalGasUsed s;
          MaxTxsPerBlock := MaxTxsPerBlock s;
          MinTxsPerBlock := MinTxsPerBlock s;
          MaxGasUsage := MaxGasUsage s;
          MinGasUsage := MinGasUsage s;
          AverageBlockTime := AverageBlockTime s;
          LastBlockTime := t |};
     alertRules := alertRules m;
     blockHistory := blockHistory m |}.

(** The interval that [processBlock] computes for [header]. *)
Definition blockInterval (m : BlockMonitor) (header : Types.Header) : Duration :=
  if negb (IsZero (LastBlockTime (stats m)))
  then Sub (Unix (int64_of_uint64 (Types.Time header))) (LastBlockTime (stats m))
  else 0.

(** [processBlock]; [fetched] is what [m.client.BlockByHash] returns for
    the header's hash.  The result is the monitor afterwards and what
    was printed. *)
Definition processBlock (m : BlockMonitor) (header : Types.Header)
           (fetched : Result Types.Block) : Panics (BlockMonitor * list Effect) :=
  match fetched with
  | Err msg => ret (m, [Logf "获取区块失败: %v" [AString msg]])
  | Ok block =>
      let blockTime := blockInterval m header in
      let m1 := setLastBlockTime m (Unix (int64_of_uint64 (Types.Time header))) in
      avgGasPrice <- calculateAverageGasPrice (Types.Transactions block) ;;
      let blockInfo :=
        {| Number := Big.Uint64 (Types.Number header);
           Hash := Types.Hash header;
           Timestamp := Unix (int64_of_uint64 (Types.Time header));
           TxCount := len (Types.Transactions block);
           GasUsed := Types.GasUsed header;
           GasLimit := Types.GasLimit header;
           GasPrice := avgGasPrice;
           BlockTime := blockTime;
           Miner := Types.Coinbase header |} in
      let m2 := updateStats m1 blockInfo in
      let m3 := addToHistory m2 blockInfo in
      ret (m3, displayBlockInfo blockInfo ++ checkAlerts m3 blockInfo)
  end.

(** The [for]/[select] loop of [Start]. *)
Fixpoint monitorLoop (m : BlockMonitor) (events : list SubEvent)
  : Panics (BlockMonitor * list Effect * Exit) :=
  match events with
  | [] => ret (m, [], StillWaiting)
  | ErrEvent msg :: _ =>
      ret (m, [Logf "❌ 订阅错误: %v" [AString msg]], ExitSubscriptionError)
  | HeaderEvent header fetched :: rest =>
      r <- processBlock m header fetched ;;
      r' <- monitorLoop (fst r) rest ;;
      ret (fst (fst r'), snd r ++ snd (fst r'), snd r')
  | DoneEvent :: _ =>
      ret (m, [Println "🔔 区块监控已停止"], ExitContextDone)
  end.

(** [Start]; [subscription] is what [SubscribeNewHead] returns: an error,
    or the events of the subscription.  The deferred [Unsubscribe] runs
    when [Start] returns. *)
Definition Start (m : BlockMonitor) (subscription : Result (list SubEvent))
  : Panics (BlockMonitor * list Effect * Exit) :=
  match subscription with
  | Err msg =>
      ret (m, [SubscribeNewHead; Fatalf "创建订阅失败: %v" [AString msg]], ExitFatal)
  | Ok events =>
      r <- monitorLoop m events ;;
      let '(m', out, exit) := r in
      let deferred :=
        match exit with
        | StillWaiting => []
        | _ => [Unsubscribe]
        end in
      ret (m', [SubscribeNewHead; Println "✅ 区块监控已启动"] ++ out ++ deferred, exit)
  end.

(** [m.cancel()]: closes the context; on a closed context it does
    nothing. *)
Definition cancel (m : BlockMonitor) : BlockMonitor :=
  {| cancelled := true;
     stats := stats m;
     alertRules := alertRules m;
     blockHistory := blockHistory m |}.

(** [generateFinalReport]; [now] is the clock when it runs. *)
Definition generateFinalReport (m : BlockMonitor) (now : Time) : list Effect :=
  let s := stats m in
  let duration := Since now (StartTime s) in
  [ Println "\n📈 最终监控报告";
    Println "================================";
    Printf "总监控时长: %s\n" [AText (formatDuration duration)];
    Printf "处理区块总数: %d 个\n" [AInt (BlockCount s)];
    Printf "处理交易总数: %d 笔\n" [AInt (TotalTxs s)] ]
  ++ (if 0 <? BlockCount s then
        [ Printf "平均区块频率: %.1f 个/小时\n"
                 [AFloat (PrimFloat.div (F64.of_int64 (BlockCount s)) (Hours duration))];
          Printf "平均交易/区块: %.1f 笔\n"
                 [AFloat (PrimFloat.div (F64.of_int64 (TotalTxs s))
                                        (F64.of_int64 (BlockCount s)))] ]
      else [])
  ++ (if 0 <? AverageBlockTime s then
        [ Printf "平均区块时间: %s\n"
                 [ADuration (Round (AverageBlockTime s) Millisecond)] ]
      else [])
  ++ [ Printf "Gas使用统计: %s (总计)\n"
              [AText (formatGas (Big.Uint64 (TotalGasUsed s)))];
       Println "监控已完成!" ].

(** [Stop], called when the clock reads [now].  Nothing in it can panic:
    it divides floating-point numbers only and indexes nothing. *)
Definition Stop (m : BlockMonitor) (now : Time) : BlockMonitor * list Effect :=
  let m' := cancel m in
  (m', generateFinalReport m' now).

End Monitor.

(* ================================================================== *)
(** ** block_subscribe.go                                              *)
(* ================================================================== *)

(** The basic subscriber.  What its display helpers print
    ([displayBlockHeader], [analyzeTransactions], [checkSpecialEvents],
    [displayRealtimeStats]) is left out: they read the block and the
    [BlockStats] and change neither. *)
Module Subscribe.
Import GoInt GoTime.

Record BlockStats : Type := mkBlockStats {
  StartTime : Time;
  BlockCount : Z;                      (* int64 *)
  TotalTxs : Z;                        (* int64 *)
  TotalGasUsed : Z;                    (* *big.Int *)
  LastBlock : option Types.Header
}.

(** The statistics that [main] creates; [now] is [time.Now()]. *)
Definition newBlockStats (now : Time) : BlockStats :=
  {| StartTime := now;
     BlockCount := 0;
     TotalTxs := 0;
     TotalGasUsed := 0;
     LastBlock := None |}.

Definition analyzeBlock (block : Types.Block) (stats : BlockStats)
  : BlockStats * list Effect :=
  let txCount := len (Types.Transactions block) in
  ({| StartTime := StartTime stats;
      BlockCount := BlockCount stats;
      TotalTxs := wrap_int64 (TotalTxs stats + txCount);
      TotalGasUsed := TotalGasUsed stats + Types.GasUsed (Types.BlockHeader block);
      LastBlock := LastBlock stats |},
   [Printf "交易数量: %d\n" [AInt txCount]]).

(** [processNewHeader]; [fetched] is what [client.BlockByHash] returns. *)
Definition processNewHeader (header : Types.Header) (fetched : Result Types.Block)
           (stats : BlockStats) : BlockStats * list Effect :=
  let stats1 :=
    {| StartTime := StartTime stats;
       BlockCount := wrap_int64 (BlockCount stats + 1);
       TotalTxs := TotalTxs stats;
       TotalGasUsed := TotalGasUsed stats;
       LastBlock := Some header |} in
  let out1 :=
    [ Printf "🆕 新区块 #%d\n" [AInt (Big.Uint64 (Types.Number header))];
      Println "--------------------------------" ] in
  match fetched with
  | Err msg => (stats1, out1 ++ [Printf "❌ 获取完整区块失败: %v\n" [AString msg]])
  | Ok block =>
      let '(stats2, out2) := analyzeBlock block stats1 in
      (stats2, out1 ++ out2 ++ [Println ""])
  end.

(** The [for]/[select] loop of [subscribeNewHeads], up to the point where
    it leaves the loop. *)
Fixpoint subscriptionLoop (stats : BlockStats) (events : list SubEvent)
  : BlockStats * list Effect * Exit :=
  match events with
  | [] => (stats, [], StillWaiting)
  | ErrEvent msg :: _ =>
      (stats,
       [Logf "❌ 订阅错误: %v" [AString msg]; Println "🔄 尝试重新订阅..."],
       ExitSubscriptionError)
  | HeaderEvent header fetched :: rest =>
      let '(stats1, out1) := processNewHeader header fetched stats in
      let '(stats2, out2, exit) := subscriptionLoop stats1 rest in
      (stats2, out1 ++ out2, exit)
  | DoneEvent :: _ => (stats, [Println "🔔 区块头订阅已停止"], ExitContextDone)
  end.

(** [subscribeNewHeads].  [node] lists what each call of
    [SubscribeNewHead] returns, the first call first: an error, or the
    events of that subscription.  After an error of the subscription the
    function sleeps five seconds, starts itself again in a new goroutine
    ([go subscribeNewHeads(ctx, client, stats)]) and returns, which runs
    its deferred [Unsubscribe]; the new goroutine goes on with the rest
    of [node].  When [node] is used up the next call has not returned. *)
Fixpoint subscribeNewHeads (stats : BlockStats) (node : list (Result (list SubEvent)))
  : BlockStats * list Effect * Exit :=
  match node with
  | [] => (stats, [SubscribeNewHead], StillWaiting)
  | Err msg :: _ =>
      (stats, [SubscribeNewHead; Fatalf "创建区块头订阅失败: %v" [AString msg]], ExitFatal)
  | Ok events :: rest =>
      let started :=
        [ SubscribeNewHead; Println "✅ 区块头订阅创建成功!";
          Println "等待新区块..."; Println "" ] in
      let '(stats1, out1, exit1) := subscriptionLoop stats events in
      match exit1 with
      | ExitSubscriptionError =>
          let '(stats2, out2, exit2) := subscribeNewHeads stats1 rest in
          (stats2, started ++ out1 ++ [Sleep (5 * Second); Unsubscribe] ++ out2, exit2)
      | StillWaiting => (stats1, started ++ out1, StillWaiting)
      | _ => (stats1, started ++ out1 ++ [Unsubscribe], exit1)
      end
  end.

(** The number of times a run has called [SubscribeNewHead]. *)
Definition isSubscribe (e : Effect) : bool :=
  match e with
  | SubscribeNewHead => true
  | _ => false
  end.

Definition subscriptions (run : list Effect) : nat :=
  List.length (filter isSubscribe run).

(** The pauses of a run. *)
Definition sleeps (run : list Effect) : list Duration :=
  flat_map (fun e => match e with Sleep d => [d] | _ => [] end) run.

(** The events of a subscription that delivers the notifications [notes]
    and then fails. *)
Definition failingAfter (msg : string) (notes : list (Types.Header * Result Types.Block))
  : list SubEvent :=
  map (fun note => HeaderEvent (fst note) (snd note)) notes ++ [ErrEvent msg].

(** A node on which every subscription is granted and fails later on:
    [sessions] lists what each of them delivers before it fails. *)
Definition failingNode (msg : string)
           (sessions : list (list (Types.Header * Result Types.Block)))
  : list (Result (list SubEvent)) :=
  map (fun notes => Ok (failingAfter msg notes)) sessions.

End Subscribe.

(* ================================================================== *)
(** ** The polling monitor                                             *)
(* ================================================================== *)

Module Poll.
Import GoInt GoTime Format.

Definition analyzeTransactions (block : Types.Block) : list Effect :=
  let txs := Types.Transactions block in
  let contractCount :=
    len (filter (fun tx => match Types.To tx with None => true | Some _ => false end) txs) in
  let transferCount :=
    len (filter (fun tx => match Types.To tx with None => false | Some _ => true end) txs) in
  (if 0 <? transferCount
   then [Printf "    转账/调用: %d 笔\n" [AInt transferCount]] else [])
  ++ (if 0 <? contractCount
      then [Printf "    合约创建: %d 笔\n" [AInt contractCount]] else []).

Definition checkSpecialConditions (block : Types.Block) : list Effect :=
  let header := Types.BlockHeader block in
  let txCount := len (Types.Transactions block) in
  let gasUsagePercent :=
    PrimFloat.mul
      (PrimFloat.div (F64.of_uint64 (Types.GasUsed header))
                     (F64.of_uint64 (Types.GasLimit header)))
      (F64.of_int64 100) in
  (if 100 <? txCount
   then [Printf "  🔥 大区块: 包含 %d 笔交易\n" [AInt txCount]] else [])
  ++ (if PrimFloat.ltb (F64.of_int64 90) gasUsagePercent
      then [Printf "  ⚡ 高 Gas 使用率: %.2f%%\n" [AFloat gasUsagePercent]] else [])
  ++ (if txCount =? 0 then [Printf "  📭 空区块\n" []] else []).

(** [processBlock]; [fetched] is what [client.BlockByNumber] returns for
    [big.NewInt(int64(blockNumber))]. *)
Definition processBlock (blockNumber : Z) (fetched : Result Types.Block) : list Effect :=
  match fetched with
  | Err msg =>
      [Logf "❌ 获取区块 #%d 失败: %v" [AInt blockNumber; AString msg]]
  | Ok block =>
      let header := Types.BlockHeader block in
      [ Printf "区块 #%d\n" [AInt (Big.Uint64 (Types.Number header))];
        Printf "  时间: %s\n"
               [ATime (Unix (int64_of_uint64 (Types.Time header))) "15:04:05"];
        Printf "  哈希: %s\n"
               [AString (String.append (String.substring 0 16 (Types.Hash header)) "...")];
        Printf "  交易数: %d 笔\n" [AInt (len (Types.Transactions block))];
        Printf "  Gas 使用: %s/%s (%.1f%%)\n"
               [AText (formatGas (Types.GasUsed header));
                AText (formatGas (Types.GasLimit header));
                AFloat (PrimFloat.mul
                          (PrimFloat.div (F64.of_uint64 (Types.GasUsed header))
                                         (F64.of_uint64 (Types.GasLimit header)))
                          (F64.of_int64 100))] ]
      ++ (if 0 <? len (Types.Transactions block) then analyzeTransactions block else [])
      ++ checkSpecialConditions block
  end.

(** The variables of [main] that the polling loop updates. *)
Record PollState : Type := mkPollState {
  lastBlockNumber : Z;                 (* uint64 *)
  blockCount : Z;                      (* int *)
  startTime : Time
}.

(** The node during one tick: the answer to [client.BlockNumber] and, for
    every requested number, the answer to [client.BlockByNumber]. *)
Record Node : Type := mkNode {
  BlockNumber : Result Z;
  BlockByNumber : Z -> Result Types.Block
}.

(** The catch-up loop
    [for blockNum := lastBlockNumber + 1; blockNum <= currentBlock; blockNum++].
    [fuel] bounds the number of times the loop condition is tested; the
    result is [None] when the loop has not ended by then.  It returns the
    block count, the numbers handed to [processBlock], in order, and the
    output. *)
Fixpoint catchUp (fuel : nat) (node : Node) (blockNum currentBlock : Z) (count : Z)
  : option (Z * list Z * list Effect) :=
  match fuel with
  | O => None
  | S fuel' =>
      if blockNum <=? currentBlock then
        let out := processBlock blockNum
                     (BlockByNumber node (int64_of_uint64 blockNum)) in
        match catchUp fuel' node (wrap_uint64 (blockNum + 1)) currentBlock
                      (wrap_int64 (count + 1)) with
        | Some (count', processed, out') => Some (count', blockNum :: processed, out ++ out')
        | None => None
        end
      else Some (count, [], [])
  end.

(** One tick of the ticker: the new state, the numbers of the blocks that
    were processed, and the output.  [now] is the clock after the
    catch-up. *)
Definition tick (fuel : nat) (st : PollState) (node : Node) (now : Time)
  : option (PollState * list Z * list Effect) :=
  match BlockNumber node with
  | Err msg => Some (st, [], [Logf "❌ 获取区块号失败: %v" [AString msg]])
  | Ok currentBlock =>
      if lastBlockNumber st <? currentBlock then
        match catchUp fuel node (wrap_uint64 (lastBlockNumber st + 1)) currentBlock
                      (blockCount st) with
        | None => None
        | Some (count, processed, out) =>
            let duration := Since now (startTime st) in
            let report :=
              if PrimFloat.leb (F64.of_int64 1) (Minutes duration) then
                [Printf "📊 统计: 已处理 %d 个区块，频率 %.2f 个/分钟\n"
                        [AInt count;
                         AFloat (PrimFloat.div (F64.of_int64 count) (Minutes duration))]]
              else [] in
            Some ({| lastBlockNumber := currentBlock;
                     blockCount := count;
                     startTime := startTime st |},
                  processed,
                  [Printf "\n🆕 发现 %d 个新区块!\n"
                          [AInt (wrap_uint64 (currentBlock - lastBlockNumber st))]]
                  ++ out ++ report)
        end
      else
        Some (st, [], [Printf "⏳ 等待新区块... (当前: #%d)\n" [AInt currentBlock]])
  end.

(** The arguments of the output that are durations: the block intervals a
    run has computed and shown. *)
Definition durationArgs (args : list Arg) : list Duration :=
  flat_map (fun a => match a with ADuration d => [d] | _ => [] end) args.

Definition intervalsShown (run : list Effect) : list Duration :=
  flat_map (fun e => match e with
                     | Printf _ args => durationArgs args
                     | Logf _ args => durationArgs args
                     | Fatalf _ args => durationArgs args
                     | _ => []
                     end) run.

(** The block numbers [lo], [lo + 1], ..., [n] of them. *)
Definition upFrom (lo : Z) (n : nat) : list Z :=
  map (fun i => lo + Z.of_nat i) (seq 0 n).

(** The number of blocks between the last seen block and the current
    one. *)
Definition missed (st : PollState) (currentBlock : Z) : nat :=
  Z.to_nat (currentBlock - lastBlockNumber st).

End Poll.

(* ================================================================== *)
(** ** Sessions                                                        *)
(* ================================================================== *)

(** The vocabulary in which the properties of a monitoring session are
    stated: which notifications a loop has handled, which of them were
    fetched, and the record the monitor makes of a fetched block. *)
Module Session.
Import GoInt GoTime Monitor.

(** The head notifications that a subscription loop handles before it
    leaves the loop, each with the result of fetching its block. *)
Fixpoint handled (events : list SubEvent) : list (Types.Header * Result Types.Block) :=
  match events with
  | HeaderEvent header fetched :: rest => (header, fetched) :: handled rest
  | _ => []
  end.

(** Those of them whose block was fetched: the ones that are folded into
    the statistics. *)
Fixpoint folded (events : list SubEvent) : list (Types.Header * Types.Block) :=
  match events with
  | HeaderEvent header (Ok block) :: rest => (header, block) :: folded rest
  | HeaderEvent header (Err _) :: rest => folded rest
  | _ => []
  end.

(** The value that [calculateAverageGasPrice] returns. *)
Definition meanGasPrice (txs : list Types.Transaction) : Z :=
  let '(total, count) := sumGasPrices txs 0 0 in
  if count =? 0 then 0 else total / count.

(** The [BlockInfo] that [processBlock] builds for a fetched block. *)
Definition recordOf (m : BlockMonitor) (header : Types.Header) (block : Types.Block)
  : BlockInfo :=
  {| Number := Big.Uint64 (Types.Number header);
     Hash := Types.Hash header;
     Timestamp := Unix (int64_of_uint64 (Types.Time header));
     TxCount := len (Types.Transactions block);
     GasUsed := Types.GasUsed header;
     GasLimit := Types.GasLimit header;
     GasPrice := meanGasPrice (Types.Transactions block);
     BlockTime := blockInterval m header;
     Miner := Types.Coinbase header |}.

(** The monitor after [processBlock] has folded a fetched block. *)
Definition foldRecord (m : BlockMonitor) (hb : Types.Header * Types.Block)
  : BlockMonitor :=
  let r := recordOf m (fst hb) (snd hb) in
  let m1 := setLastBlockTime m (Unix (int64_of_uint64 (Types.Time (fst hb)))) in
  addToHistory (updateStats m1 r) r.

Definition foldRecords (m : BlockMonitor) (l : list (Types.Header * Types.Block))
  : BlockMonitor :=
  fold_left foldRecord l m.

(** The last [n] elements of a list. *)
Definition lastN {A : Type} (n : nat) (l : list A) : list A :=
  skipn (List.length l - n) l.

(** The largest timestamp that [time.Unix] represents without wrapping
    its count of seconds. *)
Definition maxUnix : Z := maxInt64 - unixToInternal.


(** The transaction count and the gas used that [processBlock] records for
    a notification. *)
Definition txCountOf (hb : Types.Header * Types.Block) : Z :=
  len (Types.Transactions (snd hb)).

Definition gasUsedOf (hb : Types.Header * Types.Block) : Z :=
  Types.GasUsed (fst hb).

(** [M] is the largest, or the smallest, element of [l]. *)
Definition is_max (M : Z) (l : list Z) : Prop :=
  In M l /\ Forall (fun x => x <= M) l.

Definition is_min (M : Z) (l : list Z) : Prop :=
  In M l /\ Forall (fun x => M <= x) l.

(** The monitor that a run leaves, when the run does not panic. *)
Definition finalMonitor (run : Panics (BlockMonitor * list Effect * Exit))
  : option BlockMonitor :=
  option_map (fun r => fst (fst r)) run.

(** The rules of [rules] whose condition holds of a record. *)
Definition firing (rules : list AlertRule) (block : BlockInfo) (s : MonitorStats)
  : list AlertRule :=
  filter (fun rule => Condition rule block s) rules.

(** The line that [checkAlerts] prints for a rule that fires. *)
Definition alertLine (block : BlockInfo) (s : MonitorStats) (rule : AlertRule) : Effect :=
  Printf "🚨 %s\n" [AText (Message rule block s)].


End Session.

(* ================================================================== *)
(** ** Sample data                                                     *)
(* ================================================================== *)

(** Concrete headers, blocks and notifications, on which the facts below
    are exercised. *)
Module Samples.
Import GoTime.
Local Open Scope string_scope.

Definition transfer (gasPrice : Z) : Types.Transaction :=
  {| Types.GasPrice := Some gasPrice; Types.To := Some "0xa0b86991c6218b36c1d19d4a2e9eb0ce3606eb48" |}.

Definition header101 : Types.Header :=
  {| Types.Number := 101; Types.Time := 1700000000;
     Types.GasUsed := 12000000; Types.GasLimit := 30000000;
     Types.Hash := "0x3f5a6c1e0b7d4a2998e1c0d5b6a7f8091a2b3c4d5e6f708192a3b4c5d6e7f801";
     Types.Coinbase := "0x95222290dd7278aa3ddd389cc1e1d165cc4bafe5" |}.

Definition header102 : Types.Header :=
  {| Types.Number := 102; Types.Time := 1700000012;
     Types.GasUsed := 29000000; Types.GasLimit := 30000000;
     Types.Hash := "0x7c1d2e3f4a5b6c7d8e9f00112233445566778899aabbccddeeff001122334455";
     Types.Coinbase := "0x1f9090aae28b8a3dceadf281b0f12828e676c326" |}.

Definition header103 : Types.Header :=
  {| Types.Number := 103; Types.Time := 1700000024;
     Types.GasUsed := 0; Types.GasLimit := 30000000;
     Types.Hash := "0x0a1b2c3d4e5f60718293a4b5c6d7e8f90a1b2c3d4e5f60718293a4b5c6d7e8f9";
     Types.Coinbase := "0x95222290dd7278aa3ddd389cc1e1d165cc4bafe5" |}.

Definition block101 : Types.Block :=
  {| Types.BlockHeader := header101;
     Types.Transactions := [transfer 30000000000; transfer 20000000000] |}.

Definition block102 : Types.Block :=
  {| Types.BlockHeader := header102;
     Types.Transactions := [transfer 25000000000] |}.

Definition block103 : Types.Block :=
  {| Types.BlockHeader := header103; Types.Transactions := [] |}.

(** A session in which the block of the second notification cannot be
    fetched. *)
Definition eventsWithFailure : list SubEvent :=
  [ HeaderEvent header101 (Ok block101);
    HeaderEvent header102 (Err "context deadline exceeded");
    HeaderEvent header103 (Ok block103) ].

(** A single notification whose block cannot be fetched. *)
Definition eventsOneFailure : list SubEvent :=
  [ HeaderEvent header102 (Err "context deadline exceeded") ].



(** The instant at which the sample sessions start. *)
Definition startOfSession : Time := Unix 1699999990.

(** Two heads whose timestamps are 10^10 seconds apart: January 1970 and
    November 2286. *)
Definition headerEpoch : Types.Header :=
  {| Types.Number := 1; Types.Time := 0;
     Types.GasUsed := 21000; Types.GasLimit := 5000;
     Types.Hash := "0x1111111111111111111111111111111111111111111111111111111111111111";
     Types.Coinbase := "0x0000000000000000000000000000000000000000" |}.

Definition headerFar : Types.Header :=
  {| Types.Number := 2; Types.Time := 10000000000;
     Types.GasUsed := 21000; Types.GasLimit := 30000000;
     Types.Hash := "0x2222222222222222222222222222222222222222222222222222222222222222";
     Types.Coinbase := "0x0000000000000000000000000000000000000000" |}.

Definition eventsFarApart : list SubEvent :=
  [ HeaderEvent headerEpoch (Ok {| Types.BlockHeader := headerEpoch; Types.Transactions := [] |});
    HeaderEvent headerFar (Ok {| Types.BlockHeader := headerFar; Types.Transactions := [] |}) ].

(** Transactions that carry no gas price. *)
Definition txsWithoutPrice : list Types.Transaction :=
  [ {| Types.GasPrice := None; Types.To := None |};
    {| Types.GasPrice := None; Types.To := Some "0x95222290dd7278aa3ddd389cc1e1d165cc4bafe5" |} ].

(** A record with 250 transactions that uses 96% of its gas limit, and
    a record without transactions. *)
Definition busyRecord : Monitor.BlockInfo :=
  {| Monitor.Number := 2; Monitor.Hash := Types.Hash header102;
     Monitor.Timestamp := Unix 1700000012; Monitor.TxCount := 250;
     Monitor.GasUsed := 28800000; Monitor.GasLimit := 30000000;
     Monitor.GasPrice := 25000000000; Monitor.BlockTime := 12 * Second;
     Monitor.Miner := Types.Coinbase header102 |}.

Definition emptyRecord : Monitor.BlockInfo :=
  {| Monitor.Number := 3; Monitor.Hash := Types.Hash header103;
     Monitor.Timestamp := Unix 1700000024; Monitor.TxCount := 0;
     Monitor.GasUsed := 0; Monitor.GasLimit := 30000000;
     Monitor.GasPrice := 0; Monitor.BlockTime := 12 * Second;
     Monitor.Miner := Types.Coinbase header103 |}.

(** The monitor that has folded the blocks 101 and 102. *)
Definition monitorAfterTwo : Monitor.BlockMonitor :=
  Session.foldRecords (Monitor.SetupAlertRules (Monitor.NewBlockMonitor startOfSession))
                      [(header101, block101); (header102, block102)].

(** Clock readings 30 and 90 seconds after the start of the session. *)
Definition after30s : Time := Unix (1699999990 + 30).
Definition after90s : Time := Unix (1699999990 + 90).

(** The polling monitor that has last seen block 100, and a node that is
    at block 103 and serves the blocks 101 to 103. *)
Definition pollAt100 : Poll.PollState :=
  {| Poll.lastBlockNumber := 100; Poll.blockCount := 0;
     Poll.startTime := startOfSession |}.

Definition nodeAt103 : Poll.Node :=
  {| Poll.BlockNumber := Ok 103;
     Poll.BlockByNumber := fun n =>
       if Z.eqb n 101 then Ok block101
       else if Z.eqb n 102 then Ok block102
       else if Z.eqb n 103 then Ok block103
       else Err "not found" |}.

(** A node at block [current] that serves no block. *)
Definition nodeWithoutBlocks (current : Z) : Poll.Node :=
  {| Poll.BlockNumber := Ok current;
     Poll.BlockByNumber := fun _ => Err "not found" |}.

End Samples.

(* ================================================================== *)
(** ** advanced_block_monitor.go: the periodic report                  *)
(* ================================================================== *)

Module Reports.
Import GoInt GoTime Format Monitor.

(** [sort.Slice(blockTimes, func(i, j int) bool { return blockTimes[i] <
    blockTimes[j] })]: the durations in ascending order.  Insertion is
    the algorithm here; the sorted slice of integers does not depend on
    the algorithm. *)
Fixpoint insertSorted (d : Duration) (sorted : list Duration) : list Duration :=
  match sorted with
  | [] => [d]
  | x :: rest => if d <? x then d :: x :: rest else x :: insertSorted d rest
  end.

Definition sortSlice (s : list Duration) : list Duration :=
  fold_right insertSorted [] s.

(** [s[i]]: an index out of range panics. *)
Definition index {A : Type} (s : list A) (i : Z) : Panics A :=
  if i <? 0 then None else nth_error s (Z.to_nat i).

(** The loop of [displayRecentBlocksStats] over the recent records. *)
Fixpoint recentTotals (recent : list BlockInfo) (totalTxs totalGas : Z)
         (blockTimes : list Duration) : Z * Z * list Duration :=
  match recent with
  | [] => (totalTxs, totalGas, blockTimes)
  | block :: rest =>
      recentTotals rest
        (wrap_int64 (totalTxs + TxCount block))
        (wrap_uint64 (totalGas + GasUsed block))
        (if 0 <? BlockTime block then blockTimes ++ [BlockTime block] else blockTimes)
  end.

Definition displayRecentBlocksStats (m : BlockMonitor) : Panics (list Effect) :=
  if len (blockHistory m) <? 10 then ret []
  else
    let recent := skipn (List.length (blockHistory m) - 10) (blockHistory m) in
    let '(totalTxs, totalGas, blockTimes) := recentTotals recent 0 0 [] in
    let summary :=
      [ Printf "\n最近10个区块:\n" [];
        Printf "  平均交易数: %.1f 笔\n"
               [AFloat (PrimFloat.div (F64.of_int64 totalTxs) (F64.of_int64 10))];
        Printf "  平均Gas使用: %s\n" [AText (formatGas (totalGas / 10))] ] in
    if 0 <? len blockTimes then
      median <- index (sortSlice blockTimes) (Z.quot (len blockTimes) 2) ;;
      ret (summary
           ++ [Printf "  中位区块时间: %s\n" [ADuration (Round median Millisecond)]])
    else ret summary.

(** [generateReport]; [now] is the clock when it runs. *)
Definition generateReport (m : BlockMonitor) (now : Time) : Panics (list Effect) :=
  let s := stats m in
  let duration := Since now (StartTime s) in
  recentLines <- displayRecentBlocksStats m ;;
  ret ([ Println "\n📊 定期监控报告";
         Println "================================";
         Printf "监控时长: %s\n" [AText (formatDuration duration)];
         Printf "处理区块: %d 个\n" [AInt (BlockCount s)];
         Printf "总交易数: %d 笔\n" [AInt (TotalTxs s)] ]
       ++ (if 0 <? BlockCount s then
             [ Printf "平均交易/区块: %.1f 笔\n"
                      [AFloat (PrimFloat.div (F64.of_int64 (TotalTxs s))
                                             (F64.of_int64 (BlockCount s)))];
               Printf "交易数范围: %d - %d 笔\n"
                      [AInt (MinTxsPerBlock s); AInt (MaxTxsPerBlock s)];
               Printf "Gas使用范围: %s - %s\n"
                      [AText (formatGas (MinGasUsage s));
                       AText (formatGas (MaxGasUsage s))] ]
           else [])
       ++ (if 0 <? AverageBlockTime s then
             [ Printf "平均区块时间: %s\n"
                      [ADuration (Round (AverageBlockTime s) Millisecond)] ]
           else [])
       ++ recentLines
       ++ [ Println "================================" ]).

(** The releases of a run. *)
Definition unsubscribes (run : list Effect) : nat :=
  List.length (filter (fun e => match e with Unsubscribe => true | _ => false end) run).

(** The sum of a list of integers. *)
Definition total (l : list Z) : Z := fold_right Z.add 0 l.

(** The positive block times of a list of records, in order. *)
Definition positiveTimes (history : list BlockInfo) : list Duration :=
  filter (fun d => 0 <? d) (map BlockTime history).

(** The block intervals of a sequence of timestamps that follows a block
    stamped [previous] ([None] at the start of a session): zero for the
    first block of a session, then the saturated differences. *)
Fixpoint intervals (previous : option Z) (times : list Z) : list Duration :=
  match times with
  | [] => []
  | t :: rest =>
      match previous with
      | None => 0
      | Some p => saturate ((t - p) * Second)
      end :: intervals (Some t) rest
  end.

(** The monitor has last folded a block stamped [previous], or none. *)
Definition follows (previous : option Z) (m : BlockMonitor) : Prop :=
  match previous with
  | None => LastBlockTime (stats m) = zeroTime
  | Some p => 0 <= p <= maxInt64 - unixToInternal /\ LastBlockTime (stats m) = Unix (int64_of_uint64 p)
  end.

(** The line that [checkAlerts] prints when the rule on long block
    intervals fires is recognised by the format of its message. *)
Definition formatOf (t : Text) : string :=
  match t with
  | Sprintf format _ => format
  end.

Definition isLongIntervalAlert (e : Effect) : bool :=
  match e with
  | Printf _ [AText message] => String.eqb (formatOf message) "⏰ 长区块间隔 #%d: %s"
  | _ => false
  end.

(** What the monitor copies from a header and its block into the record:
    number, hash, miner, gas used, gas limit and transaction count. *)
Definition copied (r : BlockInfo) : Z * string * string * Z * Z * Z :=
  (Number r, Hash r, Miner r, GasUsed r, GasLimit r, TxCount r).

Definition announced (hb : Types.Header * Types.Block) : Z * string * string * Z * Z * Z :=
  (Big.Uint64 (Types.Number (fst hb)), Types.Hash (fst hb), Types.Coinbase (fst hb),
   Types.GasUsed (fst hb), Types.GasLimit (fst hb), len (Types.Transactions (snd hb))).

(** The arguments of the console lines of a run that were printed with
    the format [format], in order. *)
Definition linesWith (format : string) (run : list Effect) : list (list Arg) :=
  flat_map (fun e => match e with
                     | Printf f args => if String.eqb f format then [args] else []
                     | _ => []
                     end) run.

(** How many of the durations [ts] are at most, or at least, [d]. *)
Definition atMost (d : Duration) (ts : list Duration) : nat :=
  List.length (filter (fun t => t <=? d) ts).

Definition atLeast (d : Duration) (ts : list Duration) : nat :=
  List.length (filter (fun t => d <=? t) ts).

(** The subscriptions of a run that its exit leaves unreleased: the one
    that is still open while the loop waits, or the one that the node
    refused. *)
Definition pending (exit : Exit) : nat :=
  match exit with
  | StillWaiting | ExitFatal => 1
  | _ => 0
  end.

(** The gas prices that the transactions of a block carry, in order. *)
Definition gasPrices (txs : list Types.Transaction) : list Z :=
  flat_map (fun tx => match Types.GasPrice tx with Some p => [p] | None => [] end) txs.

End Reports.

(* ================================================================== *)
(** ** block_subscribe.go: what the subscriber displays                *)
(* ================================================================== *)

Module SubscribeDisplay.
Import GoInt GoTime Format Subscribe.

(** A transaction with the two further fields that [analyzeTransactions]
    reads: [tx.Value()] and [tx.Gas()]. *)
Record TxData : Type := mkTxData {
  tx : Types.Transaction;
  Value : Z;                           (* *big.Int *)
  Gas : Z                              (* uint64 *)
}.

(** The variables of [analyzeTransactions]; [minGasPrice] starts nil. *)
Record TxSummary : Type := mkTxSummary {
  transferCount : Z;
  contractCount : Z;
  totalValue : Z;
  totalGasFees : Z;
  maxGasPrice : Z;
  minGasPrice : option Z
}.

Definition emptySummary : TxSummary :=
  {| transferCount := 0; contractCount := 0; totalValue := 0;
     totalGasFees := 0; maxGasPrice := 0; minGasPrice := None |}.

(** One round of the loop of [analyzeTransactions]. *)
Definition summarize (acc : TxSummary) (t : TxData) : TxSummary :=
  let contract := match Types.To (tx t) with None => true | Some _ => false end in
  let acc1 :=
    {| transferCount := if contract then transferCount acc else transferCount acc + 1;
       contractCount := if contract then contractCount acc + 1 else contractCount acc;
       totalValue := totalValue acc + Value t;
       totalGasFees := totalGasFees acc;
       maxGasPrice := maxGasPrice acc;
       minGasPrice := minGasPrice acc |} in
  match Types.GasPrice (tx t) with
  | None => acc1
  | Some gasPrice =>
      {| transferCount := transferCount acc1;
         contractCount := contractCount acc1;
         totalValue := totalValue acc1;
         totalGasFees := totalGasFees acc1 + gasPrice * int64_of_uint64 (Gas t);
         maxGasPrice := if maxGasPrice acc1 <? gasPrice then gasPrice else maxGasPrice acc1;
         minGasPrice :=
           match minGasPrice acc1 with
           | None => Some gasPrice
           | Some lowest => if gasPrice <? lowest then Some gasPrice else Some lowest
           end |}
  end.

Definition formatEther (wei : Z) : Text :=
  Sprintf "%.6f" [ABigFloat wei 1000000000000000000].

Definition analyzeTransactions (txs : list TxData) : list Effect :=
  let sum := fold_left summarize txs emptySummary in
  [ Printf "  • 转账/调用: %d 笔\n" [AInt (transferCount sum)] ]
  ++ (if 0 <? contractCount sum
      then [Printf "  • 合约创建: %d 笔\n" [AInt (contractCount sum)]] else [])
  ++ (if 0 <? totalValue sum
      then [Printf "  • 总价值: %s ETH\n" [AText (formatEther (totalValue sum))]] else [])
  ++ match minGasPrice sum with
     | Some lowest =>
         if 0 <? maxGasPrice sum
         then [Printf "  • Gas 价格: %s - %s Gwei\n"
                      [AText (formatGwei lowest); AText (formatGwei (maxGasPrice sum))]]
         else []
     | None => []
     end
  ++ (if 0 <? totalGasFees sum
      then [Printf "  • 总 Gas 费: %s ETH\n" [AText (formatEther (totalGasFees sum))]] else []).



(** The gas prices that the transactions carry, in order. *)
Definition pricesOf (txs : list TxData) : list Z :=
  flat_map (fun t => match Types.GasPrice (tx t) with Some p => [p] | None => [] end) txs.

(** The fee that [analyzeTransactions] adds for a transaction: its gas
    price times [int64(tx.Gas())], nothing without a gas price. *)
Definition feeOf (t : TxData) : Z :=
  match Types.GasPrice (tx t) with
  | Some gasPrice => gasPrice * int64_of_uint64 (Gas t)
  | None => 0
  end.

End SubscribeDisplay.

(* ================================================================== *)
(** ** The polling monitor: the loop of [main]                         *)
(* ================================================================== *)

Module PollMain.
Import GoInt GoTime Format Poll.

(** What the [select] of the polling loop receives: a tick of the ticker,
    with the node as it answers during that tick and the clock after the
    catch-up, or the exit signal. *)
Inductive PollEvent : Type :=
| TickEvent (node : Node) (now : Time)
| SignalEvent (now : Time).

(** The lines printed on the exit signal. *)
Definition farewell (st : PollState) (now : Time) : list Effect :=
  let duration := Since now (startTime st) in
  [ Println "\n\n🛑 收到退出信号，停止监控...";
    Printf "总运行时间: %s\n" [AText (formatDuration duration)];
    Printf "总共处理了 %d 个区块\n" [AInt (blockCount st)] ]
  ++ (if PrimFloat.ltb (F64.of_int64 0) (Minutes duration) then
        [ Printf "平均区块频率: %.2f 个/分钟\n"
                 [AFloat (PrimFloat.div (F64.of_int64 (blockCount st)) (Minutes duration))] ]
      else [])
  ++ [ Println "监控已停止!" ].

(** The polling loop of [main]: the state it leaves, the block numbers it
    has handed to [processBlock], in order, its output, and whether it has
    returned.  [fuel] bounds each catch-up as in [catchUp]. *)
Fixpoint pollLoop (fuel : nat) (st : PollState) (events : list PollEvent)
  : option (PollState * list Z * list Effect * bool) :=
  match events with
  | [] => Some (st, [], [], false)
  | TickEvent node now :: rest =>
      match tick fuel st node now with
      | None => None
      | Some (st1, processed1, out1) =>
          match pollLoop fuel st1 rest with
          | None => None
          | Some (st2, processed2, out2, returned) =>
              Some (st2, processed1 ++ processed2, out1 ++ out2, returned)
          end
      end
  | SignalEvent now :: _ => Some (st, [], farewell st now, true)
  end.

(** A tick whose node answers with a block number that is a [uint64]
    below the largest one, small enough for the catch-up to end within
    [fuel], or does not answer. *)
Definition answersWithin (fuel : nat) (ev : PollEvent) : Prop :=
  match ev with
  | TickEvent node _ =>
      match BlockNumber node with
      | Ok currentBlock =>
          0 <= currentBlock < maxUint64 /\ (Z.to_nat currentBlock < fuel)%nat
      | Err _ => True
      end
  | SignalEvent _ => True
  end.

(** The number of transactions of a block that create a contract, and
    the number of the others. *)
Definition creations (txs : list Types.Transaction) : Z :=
  len (filter (fun tx => match Types.To tx with None => true | Some _ => false end) txs).

Definition calls (txs : list Types.Transaction) : Z :=
  len (filter (fun tx => match Types.To tx with None => false | Some _ => true end) txs).

End PollMain.

(* ================================================================== *)
(** ** Sample runs                                                     *)
(* ================================================================== *)

Module RunSamples.
Import GoTime.
Local Open Scope string_scope.

(** A run of the polling loop: blocks up to 103 are found, then a query
    fails, then the node answers 102, then 105, then the signal comes. *)
Definition pollRun : list PollMain.PollEvent :=
  [ PollMain.TickEvent Samples.nodeAt103 (Unix (1699999990 + 10));
    PollMain.TickEvent {| Poll.BlockNumber := Err "connection refused";
                          Poll.BlockByNumber := fun _ => Err "connection refused" |}
                       (Unix (1699999990 + 20));
    PollMain.TickEvent {| Poll.BlockNumber := Ok 102;
                          Poll.BlockByNumber := fun _ => Err "not found" |}
                       (Unix (1699999990 + 30));
    PollMain.TickEvent {| Poll.BlockNumber := Ok 105;
                          Poll.BlockByNumber := fun _ => Err "not found" |}
                       (Unix (1699999990 + 40));
    PollMain.SignalEvent (Unix (1699999990 + 45)) ].

End RunSamples.

(* ================================================================== *)
(** * Facts                                                            *)
(* ================================================================== *)

(** ** Machine integers and time *)

Module GoFacts.
Import GoInt GoTime.

Lemma wrap_int64_id z : is_int64 z -> wrap_int64 z = z.
Proof.
  unfold is_int64, wrap_int64, minInt64, maxInt64. intros H.
  rewrite Z.mod_small; lia.
Qed.

Lemma wrap_int64_range z : is_int64 (wrap_int64 z).
Proof.
  unfold is_int64, wrap_int64, minInt64, maxInt64.
  pose proof (Z.mod_pos_bound (z + 2 ^ 63) (2 ^ 64) ltac:(lia)). lia.
Qed.

Lemma wrap_int64_add_l a b : wrap_int64 (wrap_int64 a + b) = wrap_int64 (a + b).
Proof.
  unfold wrap_int64.
  replace ((a + 2 ^ 63) mod 2 ^ 64 - 2 ^ 63 + b + 2 ^ 63)
    with ((a + 2 ^ 63) mod 2 ^ 64 + b) by lia.
  replace (a + b + 2 ^ 63) with ((a + 2 ^ 63) + b) by lia.
  rewrite Z.add_mod_idemp_l by lia. reflexivity.
Qed.

Lemma int64_of_uint64_small x : 0 <= x <= maxInt64 -> int64_of_uint64 x = x.
Proof.
  intros H. apply wrap_int64_id. unfold is_int64, minInt64, maxInt64 in *. lia.
Qed.

Lemma len_nonneg {A} (s : list A) : 0 <= len s.
Proof. unfold len. lia. Qed.

Lemma len_app {A} (s t : list A) : len (s ++ t) = len s + len t.
Proof. unfold len. rewrite List.length_app. lia. Qed.

Lemma saturate_id z : is_int64 z -> saturate z = z.
Proof.
  unfold is_int64, saturate, minDuration, maxDuration. intros H.
  destruct (Z.ltb_spec z minInt64); [lia|].
  destruct (Z.ltb_spec maxInt64 z); [lia|]. reflexivity.
Qed.

Lemma saturate_nonneg z : 0 <= z -> 0 <= saturate z.
Proof.
  unfold saturate, minDuration, maxDuration, minInt64, maxInt64. intros H.
  destruct (Z.ltb_spec z (- 2 ^ 63)); [lia|].
  destruct (Z.ltb_spec (2 ^ 63 - 1) z); lia.
Qed.

End GoFacts.

(** ** The history window *)

Module WindowFacts.
Import GoInt GoTime Monitor Session GoFacts.

Lemma fold_left_snoc {A B} (f : A -> B -> A) (l : list B) (x : B) (a : A) :
  fold_left f (l ++ [x]) a = f (fold_left f l a) x.
Proof. rewrite fold_left_app. reflexivity. Qed.

Lemma tl_skipn {A} (l : list A) : tl l = skipn 1 l.
Proof. destruct l; reflexivity. Qed.

Lemma lastN_length {A} (n : nat) (l : list A) :
  List.length (lastN n l) = Nat.min n (List.length l).
Proof. unfold lastN. rewrite length_skipn. lia. Qed.

Lemma lastN_all {A} (n : nat) (l : list A) :
  (List.length l <= n)%nat -> lastN n l = l.
Proof.
  intros H. unfold lastN. replace (List.length l - n)%nat with 0%nat by lia.
  reflexivity.
Qed.

Lemma lastN_lastN {A} (n : nat) (l k : list A) :
  lastN n (lastN n l ++ k) = lastN n (l ++ k).
Proof.
  unfold lastN at 1 3. rewrite !length_app, lastN_length.
  destruct (Nat.le_gt_cases (List.length l) n) as [Hs|Hl].
  - rewrite lastN_all by lia. f_equal. lia.
  - unfold lastN. rewrite !skipn_app, length_skipn, skipn_skipn.
    replace (List.length l - (List.length l - n))%nat with n by lia.
    f_equal; f_equal; lia.
Qed.

Section Window.

(** A window of capacity [n]. *)
Variable n : nat.

(** One step of the window: the last [n] records of the window with the
    new record appended. *)
Lemma addToWindow_lastN (history : list BlockInfo) (block : BlockInfo) :
  (List.length history <= n)%nat ->
  addToWindow (Z.of_nat n) history block = lastN n (history ++ [block]).
Proof.
  intros Hlen. unfold addToWindow, len. rewrite length_app. simpl List.length.
  destruct (Z.ltb_spec (Z.of_nat n) (Z.of_nat (List.length history + 1))) as [Hgt|Hle].
  - assert (List.length history = n) as Hn by lia.
    rewrite tl_skipn. unfold lastN. rewrite length_app. simpl List.length.
    f_equal. lia.
  - symmetry. apply lastN_all. rewrite length_app. simpl. lia.
Qed.


End Window.



End WindowFacts.

(** ** A session of the block monitor *)

Module MonitorFacts.
Import GoInt GoTime Monitor Session GoFacts WindowFacts.

Lemma sumGasPrices_count (txs : list Types.Transaction) (total count : Z) :
  count <= snd (sumGasPrices txs total count).
Proof.
  revert total count. induction txs as [|tx txs IH]; intros total count; simpl.
  - lia.
  - destruct (Types.GasPrice tx).
    + specialize (IH (total + z) (count + 1)). lia.
    + apply IH.
Qed.

Lemma sumGasPrices_no_price (txs : list Types.Transaction) (total count : Z) :
  Forall (fun tx => Types.GasPrice tx = None) txs ->
  sumGasPrices txs total count = (total, count).
Proof.
  intros H. induction H as [|tx txs Htx _ IH]; simpl.
  - reflexivity.
  - rewrite Htx. exact IH.
Qed.

(** [calculateAverageGasPrice] never panics: the divisor is positive
    whenever the division is reached. *)
Lemma calculateAverageGasPrice_mean (txs : list Types.Transaction) :
  calculateAverageGasPrice txs = ret (meanGasPrice txs).
Proof.
  unfold calculateAverageGasPrice, meanGasPrice, len.
  destruct txs as [|tx txs].
  - reflexivity.
  - replace (Z.of_nat (List.length (tx :: txs)) =? 0) with false
      by (symmetry; apply Z.eqb_neq; simpl List.length; lia).
    pose proof (sumGasPrices_count (tx :: txs) 0 0) as Hc.
    destruct (sumGasPrices (tx :: txs) 0 0) as [total count]. simpl in Hc.
    destruct (Z.eqb_spec count 0) as [|Hne]; [reflexivity|].
    unfold Big.Div.
    destruct (Z.eqb_spec count 0); [contradiction|].
    destruct (Z.ltb_spec 0 count); [reflexivity|lia].
Qed.

Lemma processBlock_Err (m : BlockMonitor) (header : Types.Header) (msg : string) :
  processBlock m header (Err msg) = ret (m, [Logf "获取区块失败: %v" [AString msg]]).
Proof. reflexivity. Qed.

Lemma processBlock_Ok (m : BlockMonitor) (header : Types.Header) (block : Types.Block) :
  processBlock m header (Ok block)
  = ret (foldRecord m (header, block),
         displayBlockInfo (recordOf m header block)
         ++ checkAlerts (foldRecord m (header, block)) (recordOf m header block)).
Proof.
  unfold processBlock. rewrite calculateAverageGasPrice_mean. reflexivity.
Qed.

(** The loop never panics, and the monitor it leaves is the one in which
    the fetched notifications have been folded, in order. *)
Lemma monitorLoop_folded (events : list SubEvent) (m : BlockMonitor) :
  exists out exit,
    monitorLoop m events = ret (foldRecords m (folded events), out, exit).
Proof.
  revert m. induction events as [|ev events IH]; intros m.
  - simpl. eauto.
  - destruct ev as [msg|header fetched|].
    + simpl. eauto.
    + cbn [monitorLoop]. destruct fetched as [block|msg].
      * rewrite processBlock_Ok. cbn [bind ret fst snd].
        destruct (IH (foldRecord m (header, block))) as (out & exit & Hloop).
        rewrite Hloop. cbn [bind ret fst snd folded]. eauto.
      * rewrite processBlock_Err. cbn [bind ret fst snd].
        destruct (IH m) as (out & exit & Hloop).
        rewrite Hloop. cbn [bind ret fst snd folded]. eauto.
    + simpl. eauto.
Qed.

Lemma foldRecords_snoc (m : BlockMonitor) (l : list (Types.Header * Types.Block))
      (hb : Types.Header * Types.Block) :
  foldRecords m (l ++ [hb]) = foldRecord (foldRecords m l) hb.
Proof. unfold foldRecords. apply fold_left_snoc. Qed.

Lemma foldRecord_BlockCount (m : BlockMonitor) (hb : Types.Header * Types.Block) :
  BlockCount (stats (foldRecord m hb)) = wrap_int64 (BlockCount (stats m) + 1).
Proof. reflexivity. Qed.

Lemma foldRecords_BlockCount (l : list (Types.Header * Types.Block)) (m : BlockMonitor) :
  is_int64 (BlockCount (stats m)) ->
  BlockCount (stats (foldRecords m l)) = wrap_int64 (BlockCount (stats m) + len l).
Proof.
  intros Hm. induction l as [|hb l IH] using rev_ind.
  - simpl. rewrite Z.add_0_r, wrap_int64_id by exact Hm. reflexivity.
  - rewrite foldRecords_snoc, foldRecord_BlockCount, len_app, IH.
    rewrite wrap_int64_add_l. f_equal. unfold len. simpl. lia.
Qed.

End MonitorFacts.

(** ** The basic subscriber *)

Module SubscribeFacts.
Import GoInt GoTime Session GoFacts.
Import Subscribe.

Lemma processNewHeader_BlockCount (header : Types.Header) (fetched : Result Types.Block)
      (stats : BlockStats) :
  BlockCount (fst (processNewHeader header fetched stats))
  = wrap_int64 (BlockCount stats + 1).
Proof. destruct fetched; reflexivity. Qed.

Lemma subscriptionLoop_BlockCount (events : list SubEvent) (stats : BlockStats) :
  is_int64 (BlockCount stats) ->
  BlockCount (fst (fst (subscriptionLoop stats events)))
  = wrap_int64 (BlockCount stats + len (handled events)).
Proof.
  revert stats. induction events as [|ev events IH]; intros stats Hs.
  - simpl. rewrite Z.add_0_r, wrap_int64_id by exact Hs. reflexivity.
  - destruct ev as [msg|header fetched|].
    + simpl. rewrite Z.add_0_r, wrap_int64_id by exact Hs. reflexivity.
    + cbn [subscriptionLoop handled].
      pose proof (processNewHeader_BlockCount header fetched stats) as Hstep.
      destruct (processNewHeader header fetched stats) as [stats1 out1].
      cbn [fst] in Hstep.
      specialize (IH stats1). rewrite Hstep in IH.
      specialize (IH (wrap_int64_range _)).
      destruct (subscriptionLoop stats1 events) as [[stats2 out2] exit].
      cbn [fst] in *. rewrite IH, wrap_int64_add_l. f_equal.
      unfold len. simpl List.length. lia.
    + simpl. rewrite Z.add_0_r, wrap_int64_id by exact Hs. reflexivity.
Qed.

End SubscribeFacts.

(** ** The block count *)

Module BlockCountFacts.
Import GoInt GoTime Monitor Session GoFacts MonitorFacts.

Lemma folded_le_handled (events : list SubEvent) :
  len (folded events) <= len (handled events).
Proof.
  unfold len. induction events as [|ev events IH]; simpl; [lia|].
  destruct ev as [msg|header [block|msg]|]; simpl; lia.
Qed.

Lemma Start_folded (m : BlockMonitor) (events : list SubEvent) :
  exists out exit,
    Start m (Ok events) = ret (foldRecords m (folded events), out, exit).
Proof.
  destruct (monitorLoop_folded events m) as (out & exit & Hloop).
  unfold Start. rewrite Hloop. cbn [bind ret]. eauto.
Qed.

(** C1, as the code has it.  In the block monitor a notification whose
    block cannot be fetched leaves the monitor as it was, a fetched one
    adds exactly one to [BlockCount], and after a session (of fewer than
    [2^63] notifications, the range of the counter) [BlockCount] is the
    number of records that were folded.  In the basic subscriber
    [BlockCount] counts every notification that was received, fetched or
    not. *)
Theorem block_count_counts_folded_records :
  forall (now : Time) (events : list SubEvent),
    len (handled events) <= maxInt64 ->
    (forall m header msg,
        exists out, processBlock m header (Err msg) = ret (m, out))
    /\ (forall m header block,
        exists m' out,
          processBlock m header (Ok block) = ret (m', out)
          /\ BlockCount (stats m') = wrap_int64 (BlockCount (stats m) + 1))
    /\ (exists m' out exit,
          Start (SetupAlertRules (NewBlockMonitor now)) (Ok events) = ret (m', out, exit)
          /\ BlockCount (stats m') = len (folded events))
    /\ Subscribe.BlockCount
         (fst (fst (Subscribe.subscriptionLoop (Subscribe.newBlockStats now) events)))
       = len (handled events).
Proof.
  intros now events Hlen.
  pose proof (folded_le_handled events) as Hle.
  pose proof (len_nonneg (folded events)) as Hf.
  pose proof (len_nonneg (handled events)) as Hh.
  split; [|split; [|split]].
  - intros m header msg. rewrite processBlock_Err. eauto.
  - intros m header block. rewrite processBlock_Ok. do 2 eexists. split; [reflexivity|].
    apply foldRecord_BlockCount.
  - destruct (Start_folded (SetupAlertRules (NewBlockMonitor now)) events)
      as (out & exit & HStart).
    do 3 eexists. split; [exact HStart|].
    rewrite foldRecords_BlockCount.
    + simpl. apply wrap_int64_id. unfold is_int64, minInt64, maxInt64 in *. lia.
    + simpl. unfold is_int64, minInt64, maxInt64. lia.
  - rewrite SubscribeFacts.subscriptionLoop_BlockCount.
    + simpl. apply wrap_int64_id. unfold is_int64, minInt64, maxInt64 in *. lia.
    + simpl. unfold is_int64, minInt64, maxInt64. lia.
Qed.

(** The statement at a session whose second block cannot be fetched: the
    subscriber has counted three blocks. *)
Lemma block_count_sample_session :
  Subscribe.BlockCount
    (fst (fst (Subscribe.subscriptionLoop
                 (Subscribe.newBlockStats Samples.startOfSession)
                 Samples.eventsWithFailure)))
  = len (handled Samples.eventsWithFailure).
Proof.
  apply (block_count_counts_folded_records Samples.startOfSession Samples.eventsWithFailure).
  vm_compute. discriminate.
Defined.

(** C1 fails in the basic subscriber: one notification whose block cannot
    be fetched, nothing folded, and [BlockCount] is 1. *)
Lemma subscriber_counts_unfetched_block :
  folded Samples.eventsOneFailure = []
  /\ Subscribe.TotalTxs
       (fst (fst (Subscribe.subscriptionLoop
                    (Subscribe.newBlockStats Samples.startOfSession)
                    Samples.eventsOneFailure))) = 0
  /\ Subscribe.BlockCount
       (fst (fst (Subscribe.subscriptionLoop
                    (Subscribe.newBlockStats Samples.startOfSession)
                    Samples.eventsOneFailure)))
     <> len (folded Samples.eventsOneFailure).
Proof.
  split; [reflexivity|]. split; [reflexivity|]. vm_compute. discriminate.
Qed.

End BlockCountFacts.

(** ** The average gas price and the alert rules *)

Module RuleFacts.
Import GoInt GoTime Monitor Session GoFacts MonitorFacts.

(** C9.  When no transaction of the block carries a gas price, and so in
    particular when the block has no transaction, the average gas price is
    the value 0: the function returns, it does not panic on a division by
    zero. *)
Theorem average_gas_price_of_no_price_is_zero :
  forall txs : list Types.Transaction,
    Forall (fun tx => Types.GasPrice tx = None) txs ->
    calculateAverageGasPrice txs = ret 0.
Proof.
  intros txs Hnone. rewrite calculateAverageGasPrice_mean. unfold meanGasPrice.
  rewrite sumGasPrices_no_price by exact Hnone. reflexivity.
Qed.

Lemma average_gas_price_sample :
  calculateAverageGasPrice [] = ret 0
  /\ calculateAverageGasPrice Samples.txsWithoutPrice = ret 0.
Proof.
  split.
  - apply (average_gas_price_of_no_price_is_zero []). constructor.
  - apply (average_gas_price_of_no_price_is_zero Samples.txsWithoutPrice).
    repeat constructor.
Defined.

Lemma checkRules_firing (rules : list AlertRule) (block : BlockInfo) (s : MonitorStats) :
  checkRules rules block s = map (alertLine block s) (firing rules block s).
Proof.
  induction rules as [|rule rules IH]; simpl.
  - reflexivity.
  - rewrite IH. destruct (Condition rule block s); reflexivity.
Qed.

(** C8.  [checkAlerts] goes through all the rules in their order and
    prints the message of exactly those whose condition holds of the
    record and the statistics, in that order: a rule that fires does not
    stop the later ones.  It returns nothing but these lines: the monitor
    that [processBlock] leaves is the one it had before the rules were
    checked, and what fires is a function of the rules, the record and
    the statistics alone.  For the built-in rules the conditions are the
    four tests of [SetupAlertRules]. *)
Theorem alerts_are_the_firing_rules_in_order :
  (forall (m : BlockMonitor) (block : BlockInfo),
      checkAlerts m block
      = map (alertLine block (stats m)) (firing (alertRules m) block (stats m)))
  /\ (forall (m : BlockMonitor) (block : BlockInfo) (rule : AlertRule),
      In rule (firing (alertRules m) block (stats m))
      <-> In rule (alertRules m) /\ Condition rule block (stats m) = true)
  /\ (forall (rules1 rules2 : list AlertRule) (block : BlockInfo) (s : MonitorStats),
      firing (rules1 ++ rules2) block s = firing rules1 block s ++ firing rules2 block s)
  /\ (forall (m : BlockMonitor) (header : Types.Header) (block : Types.Block),
      let m' := foldRecord m (header, block) in
      let r := recordOf m header block in
      processBlock m header (Ok block)
      = ret (m', displayBlockInfo r
                 ++ map (alertLine r (stats m')) (firing (alertRules m') r (stats m'))))
  /\ (forall (m : BlockMonitor) (block : BlockInfo),
      map (fun rule => Condition rule block (stats (SetupAlertRules m)))
          (alertRules (SetupAlertRules m))
      = [ 200 <? TxCount block;
          PrimFloat.ltb 0x1.e666666666666p-1%float (gasRatio block);
          20 * Second <? BlockTime block;
          TxCount block =? 0 ]).
Proof.
  split; [|split; [|split; [|split]]].
  - intros m block. unfold checkAlerts. apply checkRules_firing.
  - intros m block rule. unfold firing. apply filter_In.
  - intros rules1 rules2 block s. unfold firing. apply filter_app.
  - intros m header block m' r. subst m' r.
    rewrite processBlock_Ok. unfold checkAlerts. rewrite checkRules_firing. reflexivity.
  - intros m block. reflexivity.
Qed.

(** Scenario A: the busy record fires the rules on the transaction count
    and on the gas use, the empty record the rule on empty blocks. *)
Lemma builtin_rules_on_samples :
  forall s : MonitorStats,
    map Name (firing builtinRules Samples.busyRecord s) = ["高交易量区块"; "高Gas使用率"]%string
    /\ map Name (firing builtinRules Samples.emptyRecord s) = ["空区块"]%string.
Proof. intros s. split; vm_compute; reflexivity. Qed.

End RuleFacts.

(** ** What a session leaves in the window and in the statistics *)

Module SessionFacts.
Import GoInt GoTime Monitor Session GoFacts WindowFacts MonitorFacts BlockCountFacts.

Lemma foldRecord_history (m : BlockMonitor) (hb : Types.Header * Types.Block) :
  blockHistory (foldRecord m hb)
  = addToWindow historyCapacity (blockHistory m) (recordOf m (fst hb) (snd hb)).
Proof. reflexivity. Qed.

Lemma map_lastN {A B} (f : A -> B) (n : nat) (l : list A) :
  map f (lastN n l) = lastN n (map f l).
Proof. unfold lastN. rewrite skipn_map, length_map. reflexivity. Qed.






Lemma addToWindow_last (capacity : Z) (history : list BlockInfo) (block : BlockInfo) :
  1 <= capacity ->
  exists older, addToWindow capacity history block = older ++ [block].
Proof.
  intros Hcap. unfold addToWindow, len. rewrite length_app. simpl List.length.
  destruct (Z.ltb_spec capacity (Z.of_nat (List.length history + 1))) as [Hgt|Hle].
  - destruct history as [|b history]; [simpl in Hgt; lia|].
    exists history. reflexivity.
  - exists history. reflexivity.
Qed.

Lemma Unix_not_zero (t : Z) :
  0 <= t <= maxUnix -> IsZero (Unix (int64_of_uint64 t)) = false.
Proof.
  unfold maxUnix, maxInt64, unixToInternal. intros Ht.
  rewrite int64_of_uint64_small by (unfold maxInt64; lia).
  unfold Unix, IsZero. simpl ext.
  rewrite wrap_int64_id by (unfold is_int64, minInt64, maxInt64, unixToInternal; lia).
  destruct (Z.eqb_spec (t + unixToInternal) 0) as [H|H]; [|reflexivity].
  unfold unixToInternal in H. lia.
Qed.

Lemma Unix_Sub (t t0 : Z) :
  0 <= t0 <= maxUnix -> 0 <= t <= maxUnix ->
  Sub (Unix (int64_of_uint64 t)) (Unix (int64_of_uint64 t0))
  = saturate ((t - t0) * Second).
Proof.
  unfold maxUnix, maxInt64, unixToInternal. intros Ht0 Ht.
  rewrite !int64_of_uint64_small by (unfold maxInt64; lia).
  unfold Sub, Unix. simpl ext. simpl nsec.
  rewrite !wrap_int64_id by (unfold is_int64, minInt64, maxInt64, unixToInternal; lia).
  f_equal. lia.
Qed.

(** C7, as the code has it.  The first record of a session has the block
    interval 0.  A later record has the difference between the timestamp
    of its block and the timestamp of the block folded before it, as a
    [Duration] of nanoseconds, when both timestamps are in the range in
    which [time.Unix] is exact; the difference is saturated at the bounds
    of [Duration], so it is the exact difference whenever that fits a
    [Duration], and it is not negative whenever the timestamps do not
    decrease. *)
Theorem block_interval_is_timestamp_difference :
  forall (m : BlockMonitor) (h0 h : Types.Header) (b0 b : Types.Block),
    0 <= Types.Time h0 <= maxUnix ->
    0 <= Types.Time h <= maxUnix ->
    (forall now,
        exists m1 out1 r,
          processBlock (SetupAlertRules (NewBlockMonitor now)) h0 (Ok b0) = ret (m1, out1)
          /\ blockHistory m1 = [r]
          /\ BlockTime r = 0)
    /\ exists m1 out1 m2 out2 older r,
        processBlock m h0 (Ok b0) = ret (m1, out1)
        /\ processBlock m1 h (Ok b) = ret (m2, out2)
        /\ blockHistory m2 = older ++ [r]
        /\ BlockTime r = saturate ((Types.Time h - Types.Time h0) * Second)
        /\ (is_int64 ((Types.Time h - Types.Time h0) * Second) ->
            BlockTime r = (Types.Time h - Types.Time h0) * Second)
        /\ (Types.Time h0 <= Types.Time h -> 0 <= BlockTime r).
Proof.
  intros m h0 h b0 b Ht0 Ht. split.
  - intros now. rewrite processBlock_Ok. do 3 eexists.
    split; [reflexivity|]. split; reflexivity.
  - rewrite processBlock_Ok.
    set (m1 := foldRecord m (h0, b0)).
    destruct (addToWindow_last historyCapacity (blockHistory m1) (recordOf m1 h b))
      as [older Holder]; [unfold historyCapacity; lia|].
    assert (BlockTime (recordOf m1 h b)
            = saturate ((Types.Time h - Types.Time h0) * Second)) as Hbt.
    { unfold recordOf. cbn [BlockTime]. unfold blockInterval.
      change (LastBlockTime (stats m1)) with (Unix (int64_of_uint64 (Types.Time h0))).
      rewrite Unix_not_zero by exact Ht0. cbn [negb].
      apply Unix_Sub; assumption. }
    exists m1. eexists. exists (foldRecord m1 (h, b)). eexists.
    exists older, (recordOf m1 h b).
    split; [reflexivity|]. split; [apply processBlock_Ok|].
    split; [rewrite foldRecord_history; exact Holder|].
    split; [exact Hbt|]. split.
    + intros Hfit. rewrite Hbt. apply saturate_id. exact Hfit.
    + intros Hle. rewrite Hbt. apply saturate_nonneg.
      unfold Second. nia.
Qed.

Lemma block_interval_sample :
  exists m1 out1 m2 out2 older r,
    processBlock (NewBlockMonitor Samples.startOfSession)
                 Samples.header101 (Ok Samples.block101) = ret (m1, out1)
    /\ processBlock m1 Samples.header102 (Ok Samples.block102) = ret (m2, out2)
    /\ blockHistory m2 = older ++ [r]
    /\ BlockTime r = 12 * Second.
Proof.
  destruct (block_interval_is_timestamp_difference
              (NewBlockMonitor Samples.startOfSession)
              Samples.header101 Samples.header102 Samples.block101 Samples.block102)
    as [_ (m1 & out1 & m2 & out2 & older & r & H1 & H2 & Hh & _ & Hexact & _)].
  - vm_compute. split; discriminate.
  - vm_compute. split; discriminate.
  - exists m1, out1, m2, out2, older, r.
    split; [exact H1|]. split; [exact H2|]. split; [exact Hh|].
    apply Hexact. vm_compute. split; discriminate.
Defined.

(** C7 fails when the timestamps are further apart than a [Duration] can
    hold: for blocks stamped 0 and 10^10 the interval of the second record
    is the largest [Duration], about 292 years, not the 10^10 seconds
    between them. *)
Lemma block_interval_saturates :
  option_map (fun m => map BlockTime (blockHistory m))
             (finalMonitor (Start (SetupAlertRules (NewBlockMonitor Samples.startOfSession))
                                  (Ok Samples.eventsFarApart)))
  = Some [0; maxDuration]
  /\ maxDuration
     <> (Types.Time Samples.headerFar - Types.Time Samples.headerEpoch) * Second.
Proof.
  split; [vm_compute; reflexivity|]. vm_compute. discriminate.
Qed.

(** *** Running extremes *)

Lemma max_by_comparison (a b : Z) : (if a <? b then b else a) = Z.max a b.
Proof. destruct (Z.ltb_spec a b); lia. Qed.

Lemma min_by_comparison (a b : Z) : (if b <? a then b else a) = Z.min a b.
Proof. destruct (Z.ltb_spec b a); lia. Qed.

Lemma foldRecord_extremes (m : BlockMonitor) (hb : Types.Header * Types.Block) :
  MaxTxsPerBlock (stats (foldRecord m hb)) = Z.max (MaxTxsPerBlock (stats m)) (txCountOf hb)
  /\ MinTxsPerBlock (stats (foldRecord m hb)) = Z.min (MinTxsPerBlock (stats m)) (txCountOf hb)
  /\ MaxGasUsage (stats (foldRecord m hb)) = Z.max (MaxGasUsage (stats m)) (gasUsedOf hb)
  /\ MinGasUsage (stats (foldRecord m hb)) = Z.min (MinGasUsage (stats m)) (gasUsedOf hb).
Proof.
  unfold foldRecord, txCountOf, gasUsedOf. cbn.
  rewrite !max_by_comparison, !min_by_comparison. repeat split.
Qed.

Lemma foldRecords_extremes (l : list (Types.Header * Types.Block)) (m : BlockMonitor) :
  MaxTxsPerBlock (stats (foldRecords m l))
  = fold_left Z.max (map txCountOf l) (MaxTxsPerBlock (stats m))
  /\ MinTxsPerBlock (stats (foldRecords m l))
     = fold_left Z.min (map txCountOf l) (MinTxsPerBlock (stats m))
  /\ MaxGasUsage (stats (foldRecords m l))
     = fold_left Z.max (map gasUsedOf l) (MaxGasUsage (stats m))
  /\ MinGasUsage (stats (foldRecords m l))
     = fold_left Z.min (map gasUsedOf l) (MinGasUsage (stats m)).
Proof.
  induction l as [|hb l (IH1 & IH2 & IH3 & IH4)] using rev_ind.
  - repeat split.
  - rewrite foldRecords_snoc, !map_app. cbn [map]. rewrite !fold_left_snoc.
    destruct (foldRecord_extremes (foldRecords m l) hb) as (H1 & H2 & H3 & H4).
    rewrite H1, H2, H3, H4, IH1, IH2, IH3, IH4. repeat split.
Qed.

(** A running maximum that starts at or below the values it sees ends as
    their largest; a running minimum that starts at or above them, as
    their smallest. *)
Lemma running_max (l : list Z) (a : Z) :
  l <> [] -> Forall (fun x => a <= x) l -> is_max (fold_left Z.max l a) l.
Proof.
  unfold is_max. induction l as [|x l IH] using rev_ind; intros Hne Hall.
  - contradiction.
  - rewrite fold_left_snoc. apply Forall_app in Hall. destruct Hall as [Hl Hx].
    inversion Hx as [|? ? Hax _]; subst.
    destruct l as [|y l'].
    + simpl. split; [left; lia|]. constructor; [lia|constructor].
    + destruct (IH ltac:(discriminate) Hl) as [Hin Hub].
      set (M := fold_left Z.max (y :: l') a) in *. split.
      * apply in_or_app. destruct (Z.max_spec M x) as [[_ ->]|[_ ->]].
        -- right. left. reflexivity.
        -- left. exact Hin.
      * apply Forall_app. split.
        -- eapply Forall_impl; [|exact Hub]. simpl. intros; lia.
        -- constructor; [lia|constructor].
Qed.

Lemma running_min (l : list Z) (a : Z) :
  l <> [] -> Forall (fun x => x <= a) l -> is_min (fold_left Z.min l a) l.
Proof.
  unfold is_min. induction l as [|x l IH] using rev_ind; intros Hne Hall.
  - contradiction.
  - rewrite fold_left_snoc. apply Forall_app in Hall. destruct Hall as [Hl Hx].
    inversion Hx as [|? ? Hax _]; subst.
    destruct l as [|y l'].
    + simpl. split; [left; lia|]. constructor; [lia|constructor].
    + destruct (IH ltac:(discriminate) Hl) as [Hin Hlb].
      set (M := fold_left Z.min (y :: l') a) in *. split.
      * apply in_or_app. destruct (Z.min_spec M x) as [[_ ->]|[_ ->]].
        -- left. exact Hin.
        -- right. left. reflexivity.
      * apply Forall_app. split.
        -- eapply Forall_impl; [|exact Hlb]. simpl. intros; lia.
        -- constructor; [lia|constructor].
Qed.

Lemma min_le_max (lo hi : Z) (l : list Z) : is_min lo l -> is_max hi l -> lo <= hi.
Proof.
  intros [Hin _] [_ Hub]. rewrite Forall_forall in Hub. apply Hub. exact Hin.
Qed.



End SessionFacts.

(** ** Stopping the monitor *)

Module StopFacts.
Import GoInt GoTime Monitor Session.






End StopFacts.

(** ** Re-subscription after an error of the subscription *)

Module ReconnectFacts.
Import GoInt GoTime Session GoFacts MonitorFacts.
Import Subscribe.

Lemma subscriptions_app (a b : list Effect) :
  subscriptions (a ++ b) = (subscriptions a + subscriptions b)%nat.
Proof. unfold subscriptions. rewrite filter_app, length_app. reflexivity. Qed.

Lemma sleeps_app (a b : list Effect) : sleeps (a ++ b) = sleeps a ++ sleeps b.
Proof. unfold sleeps. apply flat_map_app. Qed.

Lemma lines_subscriptions (out : list Effect) :
  Forall isLine out -> subscriptions out = 0%nat /\ sleeps out = [].
Proof.
  unfold subscriptions, sleeps. induction 1 as [|e out He _ [IH1 IH2]]; simpl.
  - split; reflexivity.
  - destruct e; simpl in *; try contradiction; split; assumption.
Qed.

Ltac lines :=
  repeat (apply Forall_app; split);
  repeat match goal with
         | |- context [if ?c then _ else _] => destruct c
         end;
  repeat constructor.

Lemma processNewHeader_lines (header : Types.Header) (fetched : Result Types.Block)
      (stats : BlockStats) :
  Forall isLine (snd (processNewHeader header fetched stats)).
Proof. destruct fetched; simpl; lines. Qed.

(** A subscription that fails after its notifications: the loop leaves
    with the error, having printed lines only. *)
Lemma subscriptionLoop_failing (msg : string)
      (notes : list (Types.Header * Result Types.Block)) (stats : BlockStats) :
  exists stats' out,
    subscriptionLoop stats (failingAfter msg notes) = (stats', out, ExitSubscriptionError)
    /\ Forall isLine out.
Proof.
  revert stats. induction notes as [|[header fetched] notes IH]; intros stats.
  - simpl. do 2 eexists. split; [reflexivity|]. lines.
  - unfold failingAfter in *. cbn [map app fst snd subscriptionLoop].
    pose proof (processNewHeader_lines header fetched stats) as Hl.
    destruct (processNewHeader header fetched stats) as [stats1 out1].
    destruct (IH stats1) as (stats' & out & Hloop & Hout).
    rewrite Hloop. do 2 eexists. split; [reflexivity|].
    apply Forall_app. split; assumption.
Qed.

(** One round of [subscribeNewHeads] on a subscription that fails: the
    pause, then the next call. *)
Lemma subscribeNewHeads_error (stats stats1 : BlockStats) (events : list SubEvent)
      (out1 : list Effect) (rest : list (Result (list SubEvent))) :
  subscriptionLoop stats events = (stats1, out1, ExitSubscriptionError) ->
  subscribeNewHeads stats (Ok events :: rest)
  = let '(stats2, out2, exit2) := subscribeNewHeads stats1 rest in
    (stats2,
     [ SubscribeNewHead; Println "✅ 区块头订阅创建成功!"; Println "等待新区块..."; Println "" ]
     ++ out1 ++ [Sleep (5 * Second); Unsubscribe] ++ out2,
     exit2).
Proof. intros Hloop. cbn [subscribeNewHeads]. rewrite Hloop. reflexivity. Qed.

(** On a node whose subscriptions keep failing, [subscribeNewHeads]
    subscribes again after every failure, each time after a pause of five
    seconds, and is still at it when the node's answers are used up. *)
Lemma subscribeNewHeads_failingNode (msg : string)
      (sessions : list (list (Types.Header * Result Types.Block))) (stats : BlockStats) :
  exists stats' out,
    subscribeNewHeads stats (failingNode msg sessions) = (stats', out, StillWaiting)
    /\ subscriptions out = S (List.length sessions)
    /\ sleeps out = repeat (5 * Second) (List.length sessions).
Proof.
  revert stats. induction sessions as [|notes sessions IH]; intros stats.
  - simpl. do 2 eexists. split; [reflexivity|]. split; reflexivity.
  - change (failingNode msg (notes :: sessions))
      with (Ok (failingAfter msg notes) :: failingNode msg sessions).
    destruct (subscriptionLoop_failing msg notes stats) as (stats1 & out1 & Hloop & Hout1).
    erewrite subscribeNewHeads_error by exact Hloop.
    destruct (IH stats1) as (stats' & out & Hrest & Hsubs & Hsleeps).
    rewrite Hrest.
    do 2 eexists. split; [reflexivity|].
    destruct (lines_subscriptions _ Hout1) as [Hs1 Hp1].
    rewrite !subscriptions_app, !sleeps_app, Hs1, Hp1, Hsubs, Hsleeps.
    split; reflexivity.
Qed.

Lemma displayBlockInfo_lines (block : Monitor.BlockInfo) :
  Forall isLine (Monitor.displayBlockInfo block).
Proof. unfold Monitor.displayBlockInfo. lines. Qed.

Lemma checkRules_lines (rules : list Monitor.AlertRule) (block : Monitor.BlockInfo)
      (s : Monitor.MonitorStats) :
  Forall isLine (Monitor.checkRules rules block s).
Proof.
  induction rules as [|rule rules IH]; simpl.
  - constructor.
  - apply Forall_app. split; [|exact IH].
    destruct (Monitor.Condition rule block s); repeat constructor.
Qed.

Lemma monitorLoop_lines (events : list SubEvent) (m : Monitor.BlockMonitor) :
  exists m' out exit,
    Monitor.monitorLoop m events = ret (m', out, exit) /\ Forall isLine out.
Proof.
  revert m. induction events as [|ev events IH]; intros m.
  - simpl. do 3 eexists. split; [reflexivity|constructor].
  - destruct ev as [msg|header fetched|].
    + simpl. do 3 eexists. split; [reflexivity|repeat constructor].
    + cbn [Monitor.monitorLoop]. destruct fetched as [block|msg].
      * rewrite processBlock_Ok. cbn [bind ret fst snd].
        destruct (IH (foldRecord m (header, block))) as (m' & out & exit & Hloop & Hout).
        rewrite Hloop. cbn [bind ret fst snd]. do 3 eexists. split; [reflexivity|].
        apply Forall_app. split; [|exact Hout].
        apply Forall_app. split; [apply displayBlockInfo_lines|apply checkRules_lines].
      * rewrite processBlock_Err. cbn [bind ret fst snd].
        destruct (IH m) as (m' & out & exit & Hloop & Hout).
        rewrite Hloop. cbn [bind ret fst snd]. do 3 eexists. split; [reflexivity|].
        apply Forall_app. split; [repeat constructor|exact Hout].
    + simpl. do 3 eexists. split; [reflexivity|repeat constructor].
Qed.

Lemma monitorLoop_failing (msg : string)
      (notes : list (Types.Header * Result Types.Block)) (m : Monitor.BlockMonitor) :
  exists m' out,
    Monitor.monitorLoop m (failingAfter msg notes) = ret (m', out, ExitSubscriptionError).
Proof.
  revert m. induction notes as [|[header fetched] notes IH]; intros m.
  - simpl. eauto.
  - unfold failingAfter in *. cbn [map app fst snd Monitor.monitorLoop].
    destruct fetched as [block|msg'].
    + rewrite processBlock_Ok. cbn [bind ret fst snd].
      destruct (IH (foldRecord m (header, block))) as (m' & out & Hloop).
      rewrite Hloop. cbn [bind ret fst snd]. eauto.
    + rewrite processBlock_Err. cbn [bind ret fst snd].
      destruct (IH m) as (m' & out & Hloop).
      rewrite Hloop. cbn [bind ret fst snd]. eauto.
Qed.

(** C5, as the code has it.  The block monitor ends on the first error of
    its subscription: [Start] returns, having subscribed once, released
    the subscription and not slept.  The basic subscriber subscribes
    again after every error of the subscription, each time after a fixed
    pause of five seconds and with no count of the attempts: as long as
    the node grants subscriptions that fail later on it goes on, and only
    a subscription that the node refuses, or the cancellation of the
    context, ends it. *)
Theorem reconnect_policy_of_each_monitor :
  (forall (m : Monitor.BlockMonitor) (events : list SubEvent),
      exists m' out exit,
        Monitor.Start m (Ok events) = ret (m', out, exit)
        /\ subscriptions out = 1%nat /\ sleeps out = [])
  /\ (forall (m : Monitor.BlockMonitor) (msg : string)
             (notes : list (Types.Header * Result Types.Block)),
      exists m' out,
        Monitor.Start m (Ok (failingAfter msg notes))
        = ret (m', out ++ [Unsubscribe], ExitSubscriptionError))
  /\ (forall (stats : BlockStats) (msg : string)
             (sessions : list (list (Types.Header * Result Types.Block))),
      exists stats' out,
        subscribeNewHeads stats (failingNode msg sessions) = (stats', out, StillWaiting)
        /\ subscriptions out = S (List.length sessions)
        /\ sleeps out = repeat (5 * Second) (List.length sessions))
  /\ (forall (stats : BlockStats) (msg refusal : string)
             (sessions : list (list (Types.Header * Result Types.Block)))
             (rest : list (Result (list SubEvent))),
      exists stats' out,
        subscribeNewHeads stats (failingNode msg sessions ++ Err refusal :: rest)
        = (stats', out, ExitFatal)).
Proof.
  split; [|split; [|split]].
  - intros m events.
    destruct (monitorLoop_lines events m) as (m' & out & exit & Hloop & Hout).
    destruct (lines_subscriptions _ Hout) as [Hs Hp].
    unfold Monitor.Start. rewrite Hloop. cbn [bind ret].
    do 3 eexists. split; [reflexivity|].
    rewrite !subscriptions_app, !sleeps_app, Hs, Hp.
    destruct exit; split; reflexivity.
  - intros m msg notes.
    destruct (monitorLoop_failing msg notes m) as (m' & out & Hloop).
    unfold Monitor.Start. rewrite Hloop. cbn [bind ret].
    exists m'. eexists. rewrite app_assoc. reflexivity.
  - intros stats msg sessions. apply subscribeNewHeads_failingNode.
  - intros stats msg refusal sessions rest. revert stats.
    induction sessions as [|notes sessions IH]; intros stats.
    + simpl. eauto.
    + change (failingNode msg (notes :: sessions) ++ Err refusal :: rest)
        with (Ok (failingAfter msg notes)
                 :: (failingNode msg sessions ++ Err refusal :: rest)).
      destruct (subscriptionLoop_failing msg notes stats) as (stats1 & out1 & Hloop & _).
      erewrite subscribeNewHeads_error by exact Hloop.
      destruct (IH stats1) as (stats' & out & Hrest).
      rewrite Hrest. eauto.
Qed.

(** C5 fails in the basic subscriber: no number bounds its attempts. *)
Lemma subscriber_attempts_are_unbounded :
  ~ exists bound : nat,
      forall (stats : BlockStats) (node : list (Result (list SubEvent))),
        (subscriptions (snd (fst (subscribeNewHeads stats node))) <= bound)%nat.
Proof.
  intros [bound Hbound].
  destruct (subscribeNewHeads_failingNode "EOF" (repeat [] bound)
                                          (newBlockStats Samples.startOfSession))
    as (stats' & out & Hrun & Hsubs & _).
  specialize (Hbound (newBlockStats Samples.startOfSession)
                     (failingNode "EOF" (repeat [] bound))).
  rewrite Hrun in Hbound. cbn [fst snd] in Hbound.
  rewrite Hsubs, repeat_length in Hbound. lia.
Qed.

End ReconnectFacts.

(** ** The polling monitor *)

Module PollFacts.
Import GoInt GoTime Format GoFacts.
Import Poll.

Lemma intervalsShown_app (a b : list Effect) :
  intervalsShown (a ++ b) = intervalsShown a ++ intervalsShown b.
Proof. unfold intervalsShown. apply flat_map_app. Qed.

Ltac no_interval :=
  repeat match goal with
         | |- context [if ?c then _ else _] => destruct c
         end;
  reflexivity.

Lemma processBlock_no_interval (blockNumber : Z) (fetched : Result Types.Block) :
  intervalsShown (processBlock blockNumber fetched) = [].
Proof.
  destruct fetched as [block|msg]; [|reflexivity].
  unfold processBlock. rewrite !intervalsShown_app.
  replace (intervalsShown (checkSpecialConditions block)) with (@nil Duration)
    by (unfold checkSpecialConditions; no_interval).
  replace (intervalsShown (if 0 <? len (Types.Transactions block)
                           then analyzeTransactions block else []))
    with (@nil Duration)
    by (unfold analyzeTransactions; no_interval).
  unfold formatGas. no_interval.
Qed.

Lemma upFrom_S (lo : Z) (n : nat) : upFrom lo (S n) = lo :: upFrom (lo + 1) n.
Proof.
  unfold upFrom. cbn [seq map]. rewrite Z.add_0_r. f_equal.
  rewrite <- seq_shift, map_map. apply map_ext. intros i. lia.
Qed.

Lemma wrap_uint64_id (z : Z) : is_uint64 z -> wrap_uint64 z = z.
Proof.
  unfold is_uint64, maxUint64, wrap_uint64. intros H. apply Z.mod_small. lia.
Qed.

(** The catch-up loop ends when the current block is below the largest
    [uint64]: it hands the numbers from [blockNum] to [currentBlock] to
    [processBlock], in ascending order, and counts them. *)
Lemma catchUp_ascending (n : nat) :
  forall (fuel : nat) (node : Node) (blockNum currentBlock count : Z),
    0 <= blockNum ->
    blockNum + Z.of_nat n = currentBlock + 1 ->
    currentBlock < maxUint64 ->
    (n < fuel)%nat ->
    exists count' out,
      catchUp fuel node blockNum currentBlock count
      = Some (count', upFrom blockNum n, out)
      /\ wrap_int64 count' = wrap_int64 (count + Z.of_nat n)
      /\ (is_int64 count \/ (0 < n)%nat -> is_int64 count')
      /\ intervalsShown out = [].
Proof.
  induction n as [|n IH]; intros fuel node blockNum currentBlock count Hlo Hn Hmax Hfuel.
  - destruct fuel as [|fuel]; [lia|]. cbn [catchUp].
    destruct (Z.leb_spec blockNum currentBlock); [lia|].
    do 2 eexists. split; [reflexivity|]. rewrite Z.add_0_r.
    split; [reflexivity|]. split; [intros [H0|H0]; [exact H0|lia]|reflexivity].
  - destruct fuel as [|fuel]; [lia|]. cbn [catchUp].
    destruct (Z.leb_spec blockNum currentBlock); [|lia].
    rewrite wrap_uint64_id by (unfold is_uint64; lia).
    destruct (IH fuel node (blockNum + 1) currentBlock (wrap_int64 (count + 1)))
      as (count' & out & Hrun & Hcount & Hrange & Hout); try lia.
    rewrite Hrun. do 2 eexists. split; [rewrite upFrom_S; reflexivity|].
    split; [|split].
    + rewrite Hcount, wrap_int64_add_l. f_equal. lia.
    + intros _. apply Hrange. left. apply wrap_int64_range.
    + rewrite intervalsShown_app, Hout, processBlock_no_interval. reflexivity.
Qed.

(** When the current block is the largest [uint64] the loop condition
    holds for every [blockNum]: the catch-up loop does not end. *)
Lemma catchUp_never_ends_at_maxUint64 (fuel : nat) :
  forall (node : Node) (blockNum count : Z),
    is_uint64 blockNum ->
    catchUp fuel node blockNum maxUint64 count = None.
Proof.
  induction fuel as [|fuel IH]; intros node blockNum count Hb.
  - reflexivity.
  - cbn [catchUp]. unfold is_uint64 in Hb.
    destruct (Z.leb_spec blockNum maxUint64); [|lia].
    rewrite IH; [reflexivity|].
    unfold is_uint64, wrap_uint64, maxUint64.
    pose proof (Z.mod_pos_bound (blockNum + 1) (2 ^ 64) ltac:(lia)). lia.
Qed.

(** One tick that finds new blocks. *)
Lemma tick_catches_up (st : PollState) (node : Node) (now : Time) (currentBlock : Z)
      (fuel : nat) :
  BlockNumber node = Ok currentBlock ->
  0 <= lastBlockNumber st < currentBlock ->
  currentBlock < maxUint64 ->
  (missed st currentBlock < fuel)%nat ->
  exists st' out,
    tick fuel st node now
    = Some (st', upFrom (lastBlockNumber st + 1) (missed st currentBlock), out)
    /\ lastBlockNumber st' = currentBlock
    /\ blockCount st' = wrap_int64 (blockCount st + (currentBlock - lastBlockNumber st))
    /\ intervalsShown out = [].
Proof.
  intros Hnode Hlast Hmax Hfuel. unfold missed in *. unfold tick. rewrite Hnode.
  destruct (Z.ltb_spec (lastBlockNumber st) currentBlock); [|lia].
  rewrite wrap_uint64_id by (unfold is_uint64; lia).
  destruct (catchUp_ascending (Z.to_nat (currentBlock - lastBlockNumber st))
              fuel node (lastBlockNumber st + 1) currentBlock (blockCount st))
    as (count' & out & Hrun & Hcount & Hrange & Hout); try lia.
  rewrite Hrun. do 2 eexists. split; [reflexivity|]. cbn [lastBlockNumber blockCount].
  split; [reflexivity|]. split.
  - rewrite <- (wrap_int64_id count') by (apply Hrange; right; lia).
    rewrite Hcount. f_equal. lia.
  - rewrite !intervalsShown_app, Hout.
    destruct (PrimFloat.leb _ _); reflexivity.
Qed.

(** C6, as the code has it.  On a tick whose query for the latest block
    number succeeds with a number above the last seen one, the polling
    monitor hands every block after the last seen one up to the current
    one to [processBlock], in ascending order, whatever their number: no
    look-back limit shortens the walk.  The current number becomes the
    last seen one and the block count grows by the number of blocks.  The
    polling monitor computes no block interval.  A tick whose query fails
    processes nothing and keeps the state. *)
Theorem poll_tick_walks_all_missed_blocks_in_order :
  forall (st : PollState) (node : Node) (now : Time) (currentBlock : Z) (fuel : nat),
    BlockNumber node = Ok currentBlock ->
    0 <= lastBlockNumber st < currentBlock ->
    currentBlock < maxUint64 ->
    (missed st currentBlock < fuel)%nat ->
    (exists st' out,
        tick fuel st node now
        = Some (st', upFrom (lastBlockNumber st + 1) (missed st currentBlock), out)
        /\ lastBlockNumber st' = currentBlock
        /\ blockCount st' = wrap_int64 (blockCount st + (currentBlock - lastBlockNumber st))
        /\ intervalsShown out = [])
    /\ (forall msg byNumber,
           tick fuel st {| BlockNumber := Err msg; BlockByNumber := byNumber |} now
           = Some (st, [], [Logf "❌ 获取区块号失败: %v" [AString msg]]))
    /\ (forall seen byNumber,
           seen <= lastBlockNumber st ->
           tick fuel st {| BlockNumber := Ok seen; BlockByNumber := byNumber |} now
           = Some (st, [], [Printf "⏳ 等待新区块... (当前: #%d)\n" [AInt seen]])).
Proof.
  intros st node now currentBlock fuel Hnode Hlast Hmax Hfuel. split; [|split].
  - apply tick_catches_up; assumption.
  - intros msg byNumber. reflexivity.
  - intros seen byNumber Hseen. unfold tick. cbn [BlockNumber].
    destruct (Z.ltb_spec (lastBlockNumber st) seen); [lia|reflexivity].
Qed.

(** Scenario B: last seen 100, current 103. *)
Lemma poll_tick_sample :
  exists st' out,
    tick 4 Samples.pollAt100 Samples.nodeAt103 Samples.after30s
    = Some (st', [101; 102; 103], out)
    /\ lastBlockNumber st' = 103
    /\ intervalsShown out = [].
Proof.
  destruct (poll_tick_walks_all_missed_blocks_in_order
              Samples.pollAt100 Samples.nodeAt103 Samples.after30s 103 4)
    as [(st' & out & Hrun & Hlast & _ & Hout) _].
  - reflexivity.
  - vm_compute. split; [discriminate|reflexivity].
  - vm_compute. reflexivity.
  - vm_compute. lia.
  - exists st', out. split; [exact Hrun|]. split; [exact Hlast|exact Hout].
Defined.

(** C6 fails on the look-back and on the intervals: in scenario B the tick
    shows no interval, not two, and no limit below the range of [uint64]
    bounds the number of blocks that one tick walks. *)
Lemma poll_tick_has_no_lookback_limit_and_no_interval :
  option_map (fun r => (snd (fst r), List.length (intervalsShown (snd r))))
             (tick 4 Samples.pollAt100 Samples.nodeAt103 Samples.after30s)
  = Some ([101; 102; 103], 0%nat)
  /\ ~ exists limit : nat,
        Z.of_nat limit + 1 < maxUint64
        /\ forall fuel st node now st' processed out,
            tick fuel st node now = Some (st', processed, out) ->
            (List.length processed <= limit)%nat.
Proof.
  split; [vm_compute; reflexivity|].
  intros (limit & Hsmall & Hlimit).
  destruct (tick_catches_up
              {| lastBlockNumber := 0; blockCount := 0; startTime := Samples.startOfSession |}
              (Samples.nodeWithoutBlocks (Z.of_nat limit + 1))
              Samples.after30s (Z.of_nat limit + 1) (S (S limit)))
    as (st' & out & Hrun & _); cbn [lastBlockNumber]; unfold missed;
    cbn [lastBlockNumber]; try lia; [reflexivity|].
  apply Hlimit in Hrun. unfold upFrom in Hrun. unfold missed in Hrun.
  cbn [lastBlockNumber] in Hrun.
  rewrite length_map, length_seq in Hrun. lia.
Qed.

End PollFacts.

(** ** Totals of a session *)

Module TotalsFacts.
Import GoInt GoTime Monitor Session Reports GoFacts WindowFacts MonitorFacts BlockCountFacts.

Lemma total_app (a b : list Z) : total (a ++ b) = total a + total b.
Proof.
  unfold total. induction a as [|x a IH]; simpl; [reflexivity|]. rewrite IH. lia.
Qed.

Lemma total_nonneg (l : list Z) : Forall (fun x => 0 <= x) l -> 0 <= total l.
Proof.
  unfold total. induction 1 as [|x l Hx _ IH]; simpl; lia.
Qed.

Lemma foldRecords_totals (l : list (Types.Header * Types.Block)) (m : BlockMonitor) :
  is_int64 (TotalTxs (stats m)) ->
  TotalTxs (stats (foldRecords m l))
  = wrap_int64 (TotalTxs (stats m) + total (map txCountOf l))
  /\ TotalGasUsed (stats (foldRecords m l))
     = TotalGasUsed (stats m) + total (map (fun hb => int64_of_uint64 (gasUsedOf hb)) l).
Proof.
  intros Hm. induction l as [|hb l [IH1 IH2]] using rev_ind.
  - simpl. rewrite !Z.add_0_r, wrap_int64_id by exact Hm. split; reflexivity.
  - rewrite foldRecords_snoc, !map_app, !total_app. cbn [map total fold_right].
    change (TotalTxs (stats (foldRecord (foldRecords m l) hb)))
      with (wrap_int64 (TotalTxs (stats (foldRecords m l)) + txCountOf hb)).
    change (TotalGasUsed (stats (foldRecord (foldRecords m l) hb)))
      with (TotalGasUsed (stats (foldRecords m l)) + int64_of_uint64 (gasUsedOf hb)).
    rewrite IH1, IH2, wrap_int64_add_l. split; [f_equal|]; lia.
Qed.

Lemma txCounts_nonneg (l : list (Types.Header * Types.Block)) :
  Forall (fun x => 0 <= x) (map txCountOf l).
Proof. apply Forall_map, Forall_forall. intros hb _. apply len_nonneg. Qed.

(** After a session of the block monitor, [TotalTxs] is the sum of the
    transaction counts of the folded records and [TotalGasUsed] the sum
    of their gas used, when the sum of the counts fits an [int64] and
    every gas value is below [2^63] (the monitor adds [int64(GasUsed)]). *)
Theorem monitor_totals_are_the_sums_over_folded_records :
  forall (now : Time) (events : list SubEvent),
    total (map txCountOf (folded events)) <= maxInt64 ->
    Forall (fun hb => 0 <= gasUsedOf hb <= maxInt64) (folded events) ->
    exists m' out exit,
      Start (SetupAlertRules (NewBlockMonitor now)) (Ok events) = ret (m', out, exit)
      /\ TotalTxs (stats m') = total (map txCountOf (folded events))
      /\ TotalGasUsed (stats m') = total (map gasUsedOf (folded events)).
Proof.
  intros now events Htxs Hgas.
  destruct (Start_folded (SetupAlertRules (NewBlockMonitor now)) events)
    as (out & exit & HStart).
  destruct (foldRecords_totals (folded events) (SetupAlertRules (NewBlockMonitor now)))
    as [H1 H2]; [simpl; unfold is_int64, minInt64, maxInt64; lia|].
  simpl in H1, H2.
  do 3 eexists. split; [exact HStart|]. split.
  - rewrite H1. apply wrap_int64_id.
    pose proof (total_nonneg _ (txCounts_nonneg (folded events))).
    unfold is_int64, minInt64, maxInt64 in *. lia.
  - rewrite H2. f_equal. apply map_ext_Forall.
    eapply Forall_impl; [|exact Hgas]. intros hb Hhb.
    apply int64_of_uint64_small. exact Hhb.
Qed.

Lemma monitor_totals_sample :
  exists m' out exit,
    Start (SetupAlertRules (NewBlockMonitor Samples.startOfSession))
          (Ok Samples.eventsWithFailure) = ret (m', out, exit)
    /\ TotalTxs (stats m') = 2
    /\ TotalGasUsed (stats m') = 12000000.
Proof.
  apply (monitor_totals_are_the_sums_over_folded_records
           Samples.startOfSession Samples.eventsWithFailure).
  - vm_compute. discriminate.
  - repeat constructor; vm_compute; discriminate.
Defined.

(** *** The basic subscriber *)

Lemma last_cons_default {A} (l : list A) (x d : A) : last (x :: l) d = last l x.
Proof.
  revert x d. induction l as [|y l IH]; intros x d; [reflexivity|].
  change (last (x :: y :: l) d) with (last (y :: l) d).
  rewrite (IH y d), (IH y x). reflexivity.
Qed.

Lemma processNewHeader_totals (header : Types.Header) (fetched : Result Types.Block)
      (stats : Subscribe.BlockStats) :
  is_int64 (Subscribe.TotalTxs stats) ->
  Subscribe.TotalTxs (fst (Subscribe.processNewHeader header fetched stats))
  = wrap_int64 (Subscribe.TotalTxs stats
                + total (map txCountOf (folded [HeaderEvent header fetched])))
  /\ Subscribe.TotalGasUsed (fst (Subscribe.processNewHeader header fetched stats))
     = Subscribe.TotalGasUsed stats
       + total (map (fun hb => Types.GasUsed (Types.BlockHeader (snd hb)))
                    (folded [HeaderEvent header fetched]))
  /\ Subscribe.LastBlock (fst (Subscribe.processNewHeader header fetched stats))
     = Some header.
Proof.
  intros Hs. destruct fetched as [block|msg]; cbn.
  - rewrite !Z.add_0_r. repeat split.
  - rewrite !Z.add_0_r, wrap_int64_id by exact Hs. repeat split.
Qed.

Lemma subscriptionLoop_totals (events : list SubEvent) (stats : Subscribe.BlockStats) :
  is_int64 (Subscribe.TotalTxs stats) ->
  Subscribe.TotalTxs (fst (fst (Subscribe.subscriptionLoop stats events)))
  = wrap_int64 (Subscribe.TotalTxs stats + total (map txCountOf (folded events)))
  /\ Subscribe.TotalGasUsed (fst (fst (Subscribe.subscriptionLoop stats events)))
     = Subscribe.TotalGasUsed stats
       + total (map (fun hb => Types.GasUsed (Types.BlockHeader (snd hb))) (folded events))
  /\ Subscribe.LastBlock (fst (fst (Subscribe.subscriptionLoop stats events)))
     = last (map (fun note => Some (fst note)) (handled events)) (Subscribe.LastBlock stats).
Proof.
  revert stats. induction events as [|ev events IH]; intros stats Hs.
  - simpl. rewrite !Z.add_0_r, wrap_int64_id by exact Hs. repeat split.
  - destruct ev as [msg|header fetched|].
    + simpl. rewrite !Z.add_0_r, wrap_int64_id by exact Hs. repeat split.
    + cbn [Subscribe.subscriptionLoop].
      destruct (processNewHeader_totals header fetched stats Hs) as (S1 & S2 & S3).
      destruct (Subscribe.processNewHeader header fetched stats) as [stats1 out1].
      cbn [fst] in S1, S2, S3.
      assert (is_int64 (Subscribe.TotalTxs stats1)) as Hs1
          by (rewrite S1; apply wrap_int64_range).
      destruct (IH stats1 Hs1) as (H1 & H2 & H3).
      destruct (Subscribe.subscriptionLoop stats1 events) as [[stats2 out2] exit].
      cbn [fst snd] in *. rewrite H1, H2, H3, S1, S2, S3.
      replace (folded (HeaderEvent header fetched :: events))
        with (folded [HeaderEvent header fetched] ++ folded events)
        by (destruct fetched; reflexivity).
      rewrite !map_app, !total_app, wrap_int64_add_l.
      split; [f_equal; lia|]. split; [lia|].
      cbn [handled map fst]. symmetry. apply last_cons_default.
    + simpl. rewrite !Z.add_0_r, wrap_int64_id by exact Hs. repeat split.
Qed.

(** In the basic subscriber the transaction and gas totals cover the
    fetched blocks only, each with the gas used of the fetched block,
    while [LastBlock] is the header of the last notification received,
    also when its block could not be fetched. *)
Theorem subscriber_totals_cover_fetched_blocks_only :
  forall (now : Time) (events : list SubEvent),
    total (map txCountOf (folded events)) <= maxInt64 ->
    Subscribe.TotalTxs
      (fst (fst (Subscribe.subscriptionLoop (Subscribe.newBlockStats now) events)))
    = total (map txCountOf (folded events))
    /\ Subscribe.TotalGasUsed
         (fst (fst (Subscribe.subscriptionLoop (Subscribe.newBlockStats now) events)))
       = total (map (fun hb => Types.GasUsed (Types.BlockHeader (snd hb))) (folded events))
    /\ Subscribe.LastBlock
         (fst (fst (Subscribe.subscriptionLoop (Subscribe.newBlockStats now) events)))
       = last (map (fun note => Some (fst note)) (handled events)) None.
Proof.
  intros now events Htxs.
  destruct (subscriptionLoop_totals events (Subscribe.newBlockStats now))
    as (H1 & H2 & H3); [simpl; unfold is_int64, minInt64, maxInt64; lia|].
  simpl in H1, H2, H3. split; [|split; assumption].
  rewrite H1. apply wrap_int64_id.
  pose proof (total_nonneg _ (txCounts_nonneg (folded events))).
  unfold is_int64, minInt64, maxInt64 in *. lia.
Qed.

Lemma subscriber_totals_sample :
  Subscribe.TotalTxs
    (fst (fst (Subscribe.subscriptionLoop
                 (Subscribe.newBlockStats Samples.startOfSession)
                 [HeaderEvent Samples.header101 (Ok Samples.block101);
                  HeaderEvent Samples.header102 (Err "timeout")]))) = 2
  /\ Subscribe.LastBlock
       (fst (fst (Subscribe.subscriptionLoop
                    (Subscribe.newBlockStats Samples.startOfSession)
                    [HeaderEvent Samples.header101 (Ok Samples.block101);
                     HeaderEvent Samples.header102 (Err "timeout")])))
     = Some Samples.header102.
Proof.
  destruct (subscriber_totals_cover_fetched_blocks_only
              Samples.startOfSession
              [HeaderEvent Samples.header101 (Ok Samples.block101);
               HeaderEvent Samples.header102 (Err "timeout")])
    as (H1 & _ & H3).
  - vm_compute. discriminate.
  - split; [exact H1|exact H3].
Defined.

End TotalsFacts.

(** ** The records of a session *)

Module RecordFacts.
Import GoInt GoTime Monitor Session Reports GoFacts WindowFacts MonitorFacts BlockCountFacts.
Import SessionFacts.

(** The timestamp that the monitor gives the record of a notification. *)
Lemma foldRecord_stamp (m : BlockMonitor) (hb : Types.Header * Types.Block) :
  LastBlockTime (stats (foldRecord m hb)) = Unix (int64_of_uint64 (Types.Time (fst hb)))
  /\ Timestamp (recordOf m (fst hb) (snd hb))
     = Unix (int64_of_uint64 (Types.Time (fst hb))).
Proof. split; reflexivity. Qed.

Section Mirror.

(** A view [f] of a record that [processBlock] fills with the view [g] of
    the notification. *)
Context {V : Type} (f : BlockInfo -> V) (g : Types.Header * Types.Block -> V).
Hypothesis filled : forall m hb, f (recordOf m (fst hb) (snd hb)) = g hb.

Lemma foldRecords_view (l : list (Types.Header * Types.Block)) (m : BlockMonitor) :
  (List.length (blockHistory m) <= 100)%nat ->
  (List.length (blockHistory (foldRecords m l)) <= 100)%nat
  /\ map f (blockHistory (foldRecords m l))
     = lastN 100 (map f (blockHistory m) ++ map g l).
Proof.
  intros Hm. induction l as [|hb l [IHlen IH]] using rev_ind.
  - simpl. split; [exact Hm|]. rewrite app_nil_r.
    symmetry. apply lastN_all. rewrite length_map. exact Hm.
  - rewrite foldRecords_snoc, foldRecord_history.
    change historyCapacity with (Z.of_nat 100).
    rewrite addToWindow_lastN by exact IHlen. split.
    + rewrite lastN_length. lia.
    + rewrite map_lastN, map_app, IH, lastN_lastN, map_app, app_assoc.
      cbn [map]. rewrite filled. reflexivity.
Qed.

End Mirror.

Lemma foldRecords_LastBlockTime (l : list (Types.Header * Types.Block)) (m : BlockMonitor) :
  LastBlockTime (stats (foldRecords m l))
  = last (map (fun hb => Unix (int64_of_uint64 (Types.Time (fst hb)))) l)
         (LastBlockTime (stats m)).
Proof.
  induction l as [|hb l IH] using rev_ind.
  - reflexivity.
  - rewrite foldRecords_snoc, map_app. cbn [map]. rewrite last_last. reflexivity.
Qed.

(** The window of a session holds, for the last hundred notifications
    whose block was fetched and in their order, the number, hash, miner,
    gas used and gas limit of the header and the number of transactions
    of the block, stamped with the header's time; and [LastBlockTime] is
    the stamp of the newest of them (the zero time when none was
    fetched). *)
Theorem window_records_mirror_the_fetched_notifications :
  forall (now : Time) (events : list SubEvent),
    exists m' out exit,
      Start (SetupAlertRules (NewBlockMonitor now)) (Ok events) = ret (m', out, exit)
      /\ map copied (blockHistory m') = lastN 100 (map announced (folded events))
      /\ map Timestamp (blockHistory m')
         = lastN 100 (map (fun hb => Unix (int64_of_uint64 (Types.Time (fst hb))))
                          (folded events))
      /\ LastBlockTime (stats m')
         = last (map Timestamp (blockHistory m')) zeroTime.
Proof.
  intros now events.
  destruct (Start_folded (SetupAlertRules (NewBlockMonitor now)) events)
    as (out & exit & HStart).
  set (m0 := SetupAlertRules (NewBlockMonitor now)) in *.
  destruct (foldRecords_view copied announced ltac:(reflexivity) (folded events) m0)
    as [_ H1]; [simpl; lia|].
  destruct (foldRecords_view Timestamp
              (fun hb => Unix (int64_of_uint64 (Types.Time (fst hb))))
              ltac:(reflexivity) (folded events) m0)
    as [_ H2]; [simpl; lia|].
  simpl app in H1, H2.
  do 3 eexists. split; [exact HStart|]. split; [exact H1|]. split; [exact H2|].
  rewrite H2, foldRecords_LastBlockTime. simpl LastBlockTime.
  generalize (map (fun hb => Unix (int64_of_uint64 (Types.Time (fst hb)))) (folded events)).
  intros l. unfold lastN.
  destruct (Nat.le_gt_cases (List.length l) 100) as [Hs|Hl].
  - replace (List.length l - 100)%nat with 0%nat by lia. reflexivity.
  - rewrite <- (firstn_skipn (List.length l - 100) l) at 1.
    remember (skipn (List.length l - 100) l) as tail eqn:Htail.
    assert (tail <> []) as Hne.
    { intros ->. apply (f_equal (@List.length Time)) in Htail.
      rewrite length_skipn in Htail. simpl in Htail. lia. }
    destruct (exists_last Hne) as (front & x & ->).
    rewrite app_assoc, !last_last. reflexivity.
Qed.

(** *** Block intervals along a session *)

Lemma foldRecords_cons (m : BlockMonitor) (hb : Types.Header * Types.Block)
      (l : list (Types.Header * Types.Block)) :
  foldRecords m (hb :: l) = foldRecords (foldRecord m hb) l.
Proof. reflexivity. Qed.

Lemma blockInterval_follows (previous : option Z) (m : BlockMonitor)
      (header : Types.Header) :
  follows previous m ->
  0 <= Types.Time header <= maxUnix ->
  [blockInterval m header] = intervals previous [Types.Time header].
Proof.
  intros Hprev Ht. unfold blockInterval. destruct previous as [p|]; simpl in *.
  - destruct Hprev as [Hp ->]. rewrite Unix_not_zero by exact Hp. cbn [negb].
    rewrite Unix_Sub by assumption. reflexivity.
  - rewrite Hprev. reflexivity.
Qed.

Lemma intervals_cons (previous : option Z) (t : Z) (times : list Z) :
  intervals previous (t :: times) = intervals previous [t] ++ intervals (Some t) times.
Proof. reflexivity. Qed.

Lemma foldRecords_intervals (l : list (Types.Header * Types.Block)) :
  forall (previous : option Z) (m : BlockMonitor),
    follows previous m ->
    (List.length (blockHistory m) <= 100)%nat ->
    Forall (fun hb => 0 <= Types.Time (fst hb) <= maxUnix) l ->
    map BlockTime (blockHistory (foldRecords m l))
    = lastN 100 (map BlockTime (blockHistory m)
                 ++ intervals previous (map (fun hb => Types.Time (fst hb)) l)).
Proof.
  induction l as [|hb l IH]; intros previous m Hprev Hlen Hrange.
  - simpl. rewrite app_nil_r. symmetry. apply lastN_all.
    rewrite length_map. exact Hlen.
  - inversion Hrange as [|? ? Hhb Hl]; subst.
    rewrite foldRecords_cons. cbn [map]. rewrite intervals_cons.
    rewrite (IH (Some (Types.Time (fst hb))) (foldRecord m hb)).
    + rewrite foldRecord_history.
      change historyCapacity with (Z.of_nat 100).
      rewrite addToWindow_lastN by exact Hlen.
      rewrite map_lastN, map_app. cbn [map].
      change (BlockTime (recordOf m (fst hb) (snd hb))) with (blockInterval m (fst hb)).
      rewrite (blockInterval_follows previous m (fst hb) Hprev Hhb).
      rewrite lastN_lastN, app_assoc. reflexivity.
    + split; [exact Hhb|reflexivity].
    + rewrite foldRecord_history. change historyCapacity with (Z.of_nat 100).
      rewrite addToWindow_lastN by exact Hlen. rewrite lastN_length. lia.
    + exact Hl.
Qed.

(** The block intervals in the window of a session are those of the
    fetched blocks, in order, the last hundred of them: zero for the
    first fetched block, then for each block the difference between its
    timestamp and the timestamp of the block fetched before it, saturated
    as a [Duration].  A block whose fetch failed is no reference point:
    the interval of the next fetched block spans it. *)
Theorem window_intervals_follow_the_fetched_timestamps :
  forall (now : Time) (events : list SubEvent),
    Forall (fun hb => 0 <= Types.Time (fst hb) <= maxUnix) (folded events) ->
    exists m' out exit,
      Start (SetupAlertRules (NewBlockMonitor now)) (Ok events) = ret (m', out, exit)
      /\ map BlockTime (blockHistory m')
         = lastN 100 (intervals None (map (fun hb => Types.Time (fst hb)) (folded events))).
Proof.
  intros now events Hrange.
  destruct (Start_folded (SetupAlertRules (NewBlockMonitor now)) events)
    as (out & exit & HStart).
  do 3 eexists. split; [exact HStart|].
  rewrite (foldRecords_intervals (folded events) None).
  - reflexivity.
  - reflexivity.
  - simpl. lia.
  - exact Hrange.
Qed.

(** With the second block not fetched, the third record spans 24
    seconds. *)
Lemma window_intervals_sample :
  exists m' out exit,
    Start (SetupAlertRules (NewBlockMonitor Samples.startOfSession))
          (Ok Samples.eventsWithFailure) = ret (m', out, exit)
    /\ map BlockTime (blockHistory m') = [0; 24 * Second].
Proof.
  apply (window_intervals_follow_the_fetched_timestamps
           Samples.startOfSession Samples.eventsWithFailure).
  repeat constructor; vm_compute; discriminate.
Defined.

End RecordFacts.

(** ** The average block time *)

Module AverageFacts.
Import GoInt GoTime Monitor Session Reports GoFacts MonitorFacts TotalsFacts.

Lemma positiveTimes_cons (b : BlockInfo) (history : list BlockInfo) :
  positiveTimes (b :: history)
  = (if 0 <? BlockTime b then [BlockTime b] else []) ++ positiveTimes history.
Proof. unfold positiveTimes. simpl. destruct (0 <? BlockTime b); reflexivity. Qed.

Lemma positiveTimes_positive (history : list BlockInfo) :
  Forall (fun d => 0 < d) (positiveTimes history).
Proof.
  unfold positiveTimes. apply Forall_forall. intros d Hd.
  apply filter_In in Hd. destruct Hd as [_ Hd]. apply Z.ltb_lt. exact Hd.
Qed.

(** While the sum fits a [Duration] the loop of [updateStats] adds up the
    positive block times exactly. *)
Lemma sumBlockTimes_exact (history : list BlockInfo) :
  forall (totalTime : Duration) (count : Z),
    0 <= totalTime ->
    totalTime + total (positiveTimes history) <= maxInt64 ->
    sumBlockTimes history totalTime count
    = (totalTime + total (positiveTimes history), count + len (positiveTimes history)).
Proof.
  induction history as [|b history IH]; intros totalTime count Hlo Hhi.
  - simpl. rewrite !Z.add_0_r. reflexivity.
  - pose proof (total_nonneg (positiveTimes history)
                  (Forall_impl _ (fun d (H : 0 < d) => Z.lt_le_incl _ _ H)
                               (positiveTimes_positive history))) as Hrest.
    rewrite positiveTimes_cons in *. cbn [sumBlockTimes].
    destruct (Z.ltb_spec 0 (BlockTime b)) as [Hpos|Hneg].
    + rewrite total_app in *. cbn [total fold_right] in *. rewrite len_app.
      rewrite wrap_int64_id
        by (unfold is_int64, minInt64, maxInt64 in *; lia).
      rewrite IH by lia. unfold len. simpl List.length. f_equal; lia.
    + simpl app in *. apply IH; assumption.
Qed.

Lemma total_between (lo hi : Z) (l : list Z) :
  Forall (fun x => lo <= x) l -> Forall (fun x => x <= hi) l ->
  len l * lo <= total l <= len l * hi.
Proof.
  unfold len, total. induction l as [|x l IH]; intros Hlo Hhi.
  - simpl. lia.
  - inversion Hlo; inversion Hhi; subst. specialize (IH ltac:(assumption) ltac:(assumption)).
    simpl List.length. cbn [fold_right]. lia.
Qed.

(** When a block is folded, the average block time becomes the mean,
    rounded down, of the positive block times of the window as it was
    before the block: the block that is being folded does not enter it.
    The mean lies between the smallest and the largest of these times.
    When the window holds no positive block time the average stays as it
    was.  (For a monitor that has folded at least one block, fewer than
    [2^63 - 1], and a window whose block times add up within a
    [Duration].) *)
Theorem average_block_time_is_the_mean_of_the_window :
  forall (m : BlockMonitor) (header : Types.Header) (block : Types.Block),
    1 <= BlockCount (stats m) < maxInt64 ->
    total (positiveTimes (blockHistory m)) <= maxInt64 ->
    exists m' out,
      processBlock m header (Ok block) = ret (m', out)
      /\ (positiveTimes (blockHistory m) = [] ->
          AverageBlockTime (stats m') = AverageBlockTime (stats m))
      /\ (positiveTimes (blockHistory m) <> [] ->
          AverageBlockTime (stats m')
          = total (positiveTimes (blockHistory m)) / len (positiveTimes (blockHistory m))
          /\ forall lo hi,
              is_min lo (positiveTimes (blockHistory m)) ->
              is_max hi (positiveTimes (blockHistory m)) ->
              0 < lo <= AverageBlockTime (stats m') /\ AverageBlockTime (stats m') <= hi).
Proof.
  intros m header block Hcount Hsum.
  rewrite processBlock_Ok. do 2 eexists. split; [reflexivity|].
  set (pos := positiveTimes (blockHistory m)) in *.
  pose proof (positiveTimes_positive (blockHistory m)) as Hpos. fold pos in Hpos.
  assert (AverageBlockTime (stats (foldRecord m (header, block)))
          = if (1 <? wrap_int64 (BlockCount (stats m) + 1)) && (0 <? len (blockHistory m))
            then let '(totalTime, count) := sumBlockTimes (blockHistory m) 0 0 in
                 if 0 <? count then wrap_int64 (Z.quot totalTime count)
                 else AverageBlockTime (stats m)
            else AverageBlockTime (stats m)) as Havg by reflexivity.
  rewrite Havg. clear Havg.
  rewrite sumBlockTimes_exact by (fold pos; lia). fold pos. rewrite !Z.add_0_l.
  rewrite wrap_int64_id by (unfold is_int64, minInt64, maxInt64 in *; lia).
  destruct (Z.ltb_spec 1 (BlockCount (stats m) + 1)) as [_|Hno]; [|lia].
  split.
  - intros Hnil. rewrite Hnil. cbn [len List.length Z.of_nat andb].
    destruct (0 <? len (blockHistory m)); reflexivity.
  - intros Hne.
    assert (0 < len pos) as Hlen
        by (unfold len; destruct pos; [contradiction|simpl; lia]).
    assert (0 < len (blockHistory m)) as Hhist.
    { unfold len. destruct (blockHistory m) as [|b h]; [|simpl; lia].
      exfalso. apply Hne. reflexivity. }
    destruct (Z.ltb_spec 0 (len (blockHistory m))) as [_|Hno]; [|lia].
    destruct (Z.ltb_spec 0 (len pos)) as [_|Hno]; [|lia].
    cbn [andb].
    assert (0 <= total pos) as Htot.
    { apply total_nonneg. eapply Forall_impl; [|exact Hpos]. simpl. intros; lia. }
    rewrite Z.quot_div_nonneg by lia.
    assert (0 <= total pos / len pos <= total pos) as Hq.
    { split; [apply Z.div_pos; lia|].
      apply Z.div_le_upper_bound; [lia|]. nia. }
    rewrite wrap_int64_id by (unfold is_int64, minInt64, maxInt64 in *; lia).
    split; [reflexivity|].
    intros lo hi [Hlo_in Hlo] [Hhi_in Hhi].
    destruct (total_between lo hi pos Hlo Hhi) as [Hb1 Hb2].
    rewrite Forall_forall in Hpos. specialize (Hpos lo Hlo_in). simpl in Hpos.
    split; [split; [exact Hpos|]|].
    + apply Z.div_le_lower_bound; [exact Hlen|exact Hb1].
    + apply Z.div_le_upper_bound; [exact Hlen|exact Hb2].
Qed.

(** After the blocks 101 and 102, twelve seconds apart, folding block
    103 sets the average to twelve seconds. *)
Lemma average_block_time_sample :
  exists m' out,
    processBlock Samples.monitorAfterTwo Samples.header103 (Ok Samples.block103)
    = ret (m', out)
    /\ AverageBlockTime (stats m') = 12 * Second.
Proof.
  destruct (average_block_time_is_the_mean_of_the_window
              Samples.monitorAfterTwo Samples.header103 Samples.block103)
    as (m' & out & Hrun & _ & Hmean).
  - vm_compute. split; [discriminate|reflexivity].
  - vm_compute. discriminate.
  - exists m', out. split; [exact Hrun|].
    destruct Hmean as [Hmean _]; [vm_compute; discriminate|].
    rewrite Hmean. vm_compute. reflexivity.
Defined.

End AverageFacts.

(** ** The alert on long block intervals *)

Module AlertFacts.
Import GoInt GoTime Format Monitor Session Reports GoFacts MonitorFacts.
Import RuleFacts SessionFacts.

Lemma display_is_no_alert (r : BlockInfo) :
  existsb isLongIntervalAlert (displayBlockInfo r) = false.
Proof.
  unfold displayBlockInfo. rewrite !existsb_app.
  destruct (0 <? GasPrice r); destruct (0 <? BlockTime r); reflexivity.
Qed.

Lemma long_interval_alert_fires (r : BlockInfo) (s : MonitorStats) :
  existsb isLongIntervalAlert (map (alertLine r s) (firing builtinRules r s))
  = (20 * Second <? BlockTime r).
Proof.
  unfold firing, builtinRules. cbn [filter Condition].
  destruct (200 <? TxCount r);
    destruct (PrimFloat.ltb _ (gasRatio r));
    destruct (20 * Second <? BlockTime r);
    destruct (TxCount r =? 0); reflexivity.
Qed.

Lemma saturated_interval_is_long (dt : Z) :
  (20 * Second <? saturate (dt * Second)) = (20 <? dt).
Proof.
  unfold saturate, minDuration, maxDuration, minInt64, maxInt64, Second.
  destruct (Z.ltb_spec (dt * 1000000000) (- 2 ^ 63));
    destruct (Z.ltb_spec (2 ^ 63 - 1) (dt * 1000000000));
    destruct (Z.ltb_spec 20 dt);
    match goal with |- (?a <? ?b) = _ => destruct (Z.ltb_spec a b) end;
    try reflexivity; lia.
Qed.

Lemma processBlock_alerts (m : BlockMonitor) (header : Types.Header) (block : Types.Block) :
  exists m' out,
    processBlock (SetupAlertRules m) header (Ok block) = ret (m', out)
    /\ alertRules m' = builtinRules
    /\ LastBlockTime (stats m') = Unix (int64_of_uint64 (Types.Time header))
    /\ existsb isLongIntervalAlert out
       = (20 * Second <? blockInterval m header).
Proof.
  rewrite processBlock_Ok. do 2 eexists. split; [reflexivity|].
  split; [reflexivity|]. split; [reflexivity|].
  rewrite existsb_app, display_is_no_alert. unfold checkAlerts.
  rewrite checkRules_firing.
  change (alertRules (foldRecord (SetupAlertRules m) (header, block))) with builtinRules.
  rewrite long_interval_alert_fires. reflexivity.
Qed.

(** With the built-in rules, the alert on long block intervals is raised
    for a block exactly when its timestamp is more than 20 seconds after
    the timestamp of the block folded before it, however far apart the
    two are; the first block of a session never raises it.  (Timestamps
    in the range in which [time.Unix] is exact.) *)
Theorem long_interval_alert_means_more_than_20_seconds :
  forall (m : BlockMonitor) (h0 h : Types.Header) (b0 b : Types.Block),
    0 <= Types.Time h0 <= maxUnix ->
    0 <= Types.Time h <= maxUnix ->
    (forall now,
        exists m1 out1,
          processBlock (SetupAlertRules (NewBlockMonitor now)) h0 (Ok b0) = ret (m1, out1)
          /\ existsb isLongIntervalAlert out1 = false)
    /\ exists m1 out1 m2 out2,
        processBlock (SetupAlertRules m) h0 (Ok b0) = ret (m1, out1)
        /\ processBlock m1 h (Ok b) = ret (m2, out2)
        /\ existsb isLongIntervalAlert out2 = (20 <? Types.Time h - Types.Time h0).
Proof.
  intros m h0 h b0 b Ht0 Ht. split.
  - intros now.
    destruct (processBlock_alerts (NewBlockMonitor now) h0 b0)
      as (m1 & out1 & Hrun & _ & _ & Halert).
    exists m1, out1. split; [exact Hrun|]. rewrite Halert. reflexivity.
  - destruct (processBlock_alerts m h0 b0) as (m1 & out1 & Hrun1 & Hrules & Hlast & _).
    assert (m1 = SetupAlertRules m1) as Hm1.
    { destruct m1 as [c s rules hist]. simpl in Hrules. subst rules. reflexivity. }
    destruct (processBlock_alerts m1 h b) as (m2 & out2 & Hrun2 & _ & _ & Halert).
    rewrite <- Hm1 in Hrun2.
    exists m1, out1, m2, out2. split; [exact Hrun1|]. split; [exact Hrun2|].
    rewrite Halert. unfold blockInterval. rewrite Hlast.
    rewrite Unix_not_zero by exact Ht0. cbn [negb].
    rewrite Unix_Sub by assumption. apply saturated_interval_is_long.
Qed.

(** Block 102 comes twelve seconds after block 101: no alert. *)
Lemma long_interval_alert_sample :
  exists m1 out1 m2 out2,
    processBlock (SetupAlertRules (NewBlockMonitor Samples.startOfSession))
                 Samples.header101 (Ok Samples.block101) = ret (m1, out1)
    /\ processBlock m1 Samples.header102 (Ok Samples.block102) = ret (m2, out2)
    /\ existsb isLongIntervalAlert out2 = false.
Proof.
  destruct (long_interval_alert_means_more_than_20_seconds
              (NewBlockMonitor Samples.startOfSession)
              Samples.header101 Samples.header102 Samples.block101 Samples.block102)
    as [_ (m1 & out1 & m2 & out2 & H1 & H2 & H3)].
  - vm_compute. split; discriminate.
  - vm_compute. split; discriminate.
  - exists m1, out1, m2, out2. split; [exact H1|]. split; [exact H2|exact H3].
Defined.

End AlertFacts.

(** ** The reports *)

Module ReportFacts.
Import GoInt GoTime Format Monitor Session Reports GoFacts WindowFacts MonitorFacts.
Import BlockCountFacts TotalsFacts SessionFacts.

(** *** Sorting the block times *)

Lemma insertSorted_perm (d : Duration) (l : list Duration) :
  Permutation (insertSorted d l) (d :: l).
Proof.
  induction l as [|x l IH]; simpl.
  - apply Permutation_refl.
  - destruct (d <? x); [apply Permutation_refl|].
    eapply perm_trans; [apply perm_skip; exact IH|apply perm_swap].
Qed.

Lemma sortSlice_perm (l : list Duration) : Permutation (sortSlice l) l.
Proof.
  unfold sortSlice. induction l as [|x l IH]; simpl.
  - apply perm_nil.
  - eapply perm_trans; [apply insertSorted_perm|apply perm_skip; exact IH].
Qed.

Lemma insertSorted_sorted (d : Duration) (l : list Duration) :
  StronglySorted Z.le l -> StronglySorted Z.le (insertSorted d l).
Proof.
  induction 1 as [|x l Hl IH Hx]; simpl.
  - repeat constructor.
  - destruct (Z.ltb_spec d x) as [Hlt|Hge].
    + constructor; [constructor; assumption|].
      constructor; [lia|]. eapply Forall_impl; [|exact Hx]. simpl. intros; lia.
    + constructor; [exact IH|].
      eapply Permutation_Forall; [apply Permutation_sym, insertSorted_perm|].
      constructor; assumption.
Qed.

Lemma sortSlice_sorted (l : list Duration) : StronglySorted Z.le (sortSlice l).
Proof.
  unfold sortSlice. induction l as [|x l IH]; simpl.
  - constructor.
  - apply insertSorted_sorted. exact IH.
Qed.

(** In a sorted slice the element at index [k] is at least the [k + 1]
    first elements and at most the elements from [k] on. *)
Lemma sorted_around_index (k : nat) :
  forall (s : list Duration) (x : Duration),
    StronglySorted Z.le s ->
    nth_error s k = Some x ->
    Forall (fun y => y <= x) (firstn (S k) s) /\ Forall (fun y => x <= y) (skipn k s).
Proof.
  induction k as [|k IH]; intros s x Hs Hk.
  - destruct s as [|y s]; [discriminate|]. simpl in Hk. injection Hk as ->.
    inversion Hs as [|? ? _ Hall]; subst. split.
    + simpl. constructor; [lia|constructor].
    + simpl. constructor; [lia|exact Hall].
  - destruct s as [|y s]; [discriminate|]. simpl in Hk.
    inversion Hs as [|? ? Hs' Hall]; subst.
    destruct (IH s x Hs' Hk) as [Hfirst Hrest]. split.
    + change (firstn (S (S k)) (y :: s)) with (y :: firstn (S k) s).
      constructor; [|exact Hfirst].
      rewrite Forall_forall in Hall. apply Hall. eapply nth_error_In. exact Hk.
    + exact Hrest.
Qed.

Lemma filter_all_length {A} (f : A -> bool) (l : list A) :
  Forall (fun x => f x = true) l -> List.length (filter f l) = List.length l.
Proof.
  induction 1 as [|x l Hx _ IH]; simpl; [reflexivity|]. rewrite Hx. simpl. lia.
Qed.

Lemma filter_length_perm {A} (f : A -> bool) (l l' : list A) :
  Permutation l l' -> List.length (filter f l) = List.length (filter f l').
Proof.
  induction 1 as [|x l l' _ IH|x y l|l l' l'' _ IH1 _ IH2]; simpl.
  - reflexivity.
  - destruct (f x); simpl; lia.
  - destruct (f x), (f y); reflexivity.
  - lia.
Qed.

Lemma sorted_counts (s : list Duration) (k : nat) (x : Duration) :
  StronglySorted Z.le s ->
  nth_error s k = Some x ->
  (S k <= atMost x s)%nat /\ (List.length s - k <= atLeast x s)%nat.
Proof.
  intros Hs Hk. destruct (sorted_around_index k s x Hs Hk) as [Hfirst Hrest].
  assert (k < List.length s)%nat as Hlt by (apply nth_error_Some; congruence).
  unfold atMost, atLeast. split.
  - rewrite <- (firstn_skipn (S k) s) at 1. rewrite filter_app, length_app.
    rewrite filter_all_length.
    + rewrite length_firstn. lia.
    + eapply Forall_impl; [|exact Hfirst]. simpl. intros y Hy. apply Z.leb_le. exact Hy.
  - rewrite <- (firstn_skipn k s) at 2. rewrite filter_app, length_app.
    rewrite (filter_all_length _ (skipn k s)).
    + rewrite length_skipn. lia.
    + eapply Forall_impl; [|exact Hrest]. simpl. intros y Hy. apply Z.leb_le. exact Hy.
Qed.

(** The element in the middle of the sorted slice: the index is in range,
    the element is one of the durations, more than half of the durations
    are at most it and at least half are at least it. *)
Lemma middle_of_sorted (ts : list Duration) :
  ts <> [] ->
  exists median,
    index (sortSlice ts) (Z.quot (len ts) 2) = ret median
    /\ In median ts
    /\ (List.length ts < 2 * atMost median ts)%nat
    /\ (List.length ts <= 2 * atLeast median ts)%nat.
Proof.
  intros Hne.
  assert (0 < List.length ts)%nat as Hpos by (destruct ts; [contradiction|simpl; lia]).
  pose proof (sortSlice_perm ts) as Hperm.
  pose proof (Permutation_length Hperm) as Hlen.
  set (k := Z.to_nat (Z.quot (len ts) 2)).
  assert (Z.quot (len ts) 2 = Z.of_nat (List.length ts / 2)) as Hk.
  { unfold len. rewrite Z.quot_div_nonneg by lia.
    rewrite Nat2Z.inj_div. reflexivity. }
  assert (k = (List.length ts / 2)%nat) as Hk' by (unfold k; rewrite Hk; lia).
  assert (k < List.length (sortSlice ts))%nat as Hin.
  { rewrite Hlen, Hk'. apply Nat.div_lt; lia. }
  destruct (nth_error (sortSlice ts) k) as [median|] eqn:Hnth;
    [|apply nth_error_None in Hnth; lia].
  exists median. split.
  - unfold index. destruct (Z.ltb_spec (Z.quot (len ts) 2) 0) as [Hneg|_]; [lia|].
    exact Hnth.
  - split; [eapply Permutation_in; [exact Hperm|eapply nth_error_In; exact Hnth]|].
    destruct (sorted_counts (sortSlice ts) k median (sortSlice_sorted ts) Hnth)
      as [Hmost Hleast].
    unfold atMost, atLeast in *.
    rewrite (filter_length_perm _ _ _ Hperm) in Hmost.
    rewrite (filter_length_perm _ _ _ Hperm) in Hleast.
    rewrite Hlen in Hleast.
    pose proof (Nat.div_mod_eq (List.length ts) 2) as Hdiv.
    pose proof (Nat.mod_upper_bound (List.length ts) 2 ltac:(lia)) as Hmod.
    rewrite Hk' in *. unfold Duration in *. split; lia.
Qed.

(** *** The recent blocks *)

Lemma recentTotals_times (recent : list BlockInfo) :
  forall (totalTxs totalGas : Z) (blockTimes : list Duration),
    snd (recentTotals recent totalTxs totalGas blockTimes)
    = blockTimes ++ positiveTimes recent.
Proof.
  induction recent as [|b recent IH]; intros totalTxs totalGas blockTimes.
  - simpl. rewrite app_nil_r. reflexivity.
  - cbn [recentTotals]. rewrite IH. unfold positiveTimes. cbn [map filter].
    destruct (0 <? BlockTime b); [rewrite <- app_assoc|]; reflexivity.
Qed.

(** [displayRecentBlocksStats] never panics.  It prints nothing while the
    window holds fewer than ten records.  From ten records on it prints
    its three summary lines and, when one of the ten most recent records
    has a positive block time, the median line: the median it shows is
    the block time of one of these records, more than half of their
    positive block times are at most it and at least half are at least
    it (the upper median). *)
Theorem recent_blocks_median_is_the_upper_median :
  forall m : BlockMonitor,
    exists out,
      displayRecentBlocksStats m = ret out
      /\ (len (blockHistory m) < 10 -> out = [])
      /\ (10 <= len (blockHistory m) ->
          positiveTimes (lastN 10 (blockHistory m)) = [] ->
          List.length out = 3%nat
          /\ linesWith "  中位区块时间: %s\n" out = [])
      /\ (10 <= len (blockHistory m) ->
          positiveTimes (lastN 10 (blockHistory m)) <> [] ->
          exists median,
            List.length out = 4%nat
            /\ linesWith "  中位区块时间: %s\n" out
               = [[ADuration (Round median Millisecond)]]
            /\ In median (positiveTimes (lastN 10 (blockHistory m)))
            /\ (List.length (positiveTimes (lastN 10 (blockHistory m)))
                < 2 * atMost median (positiveTimes (lastN 10 (blockHistory m))))%nat
            /\ (List.length (positiveTimes (lastN 10 (blockHistory m)))
                <= 2 * atLeast median (positiveTimes (lastN 10 (blockHistory m))))%nat).
Proof.
  intros m. unfold displayRecentBlocksStats.
  destruct (Z.ltb_spec (len (blockHistory m)) 10) as [Hfew|Hmany].
  - exists []. split; [reflexivity|]. split; [reflexivity|]. split; intros; lia.
  - fold (lastN 10 (blockHistory m)).
    pose proof (recentTotals_times (lastN 10 (blockHistory m)) 0 0 []) as Htimes.
    destruct (recentTotals (lastN 10 (blockHistory m)) 0 0 [])
      as [[totalTxs totalGas] blockTimes].
    cbn [snd app] in Htimes. subst blockTimes.
    set (ts := positiveTimes (lastN 10 (blockHistory m))) in *.
    destruct (Z.ltb_spec 0 (len ts)) as [Hsome|Hnone].
    + assert (ts <> []) as Hne
          by (intros Hnil; rewrite Hnil in Hsome; unfold len in Hsome; simpl in Hsome; lia).
      destruct (middle_of_sorted ts Hne) as (median & Hidx & Hin & Hmost & Hleast).
      rewrite Hidx. cbn [bind ret].
      eexists. split; [reflexivity|]. split; [intros; lia|]. split.
      * intros _ Hnil. contradiction.
      * intros _ _. exists median.
        split; [reflexivity|]. split; [reflexivity|].
        split; [exact Hin|]. split; assumption.
    + assert (ts = []) as Hnil
          by (destruct ts; [reflexivity|unfold len in Hnone; simpl in Hnone; lia]).
      eexists. split; [reflexivity|]. split; [intros; lia|]. split.
      * intros _ _. split; reflexivity.
      * intros _ Hne. contradiction.
Qed.

Lemma displayRecentBlocksStats_lines (m : BlockMonitor) (format : string) :
  exists out,
    displayRecentBlocksStats m = ret out
    /\ (linesWith format out = []
        \/ format = "\n最近10个区块:\n"%string
        \/ format = "  平均交易数: %.1f 笔\n"%string
        \/ format = "  平均Gas使用: %s\n"%string
        \/ format = "  中位区块时间: %s\n"%string).
Proof.
  unfold displayRecentBlocksStats.
  destruct (len (blockHistory m) <? 10); [exists []; split; [reflexivity|left; reflexivity]|].
  destruct (recentTotals _ 0 0 []) as [[totalTxs totalGas] blockTimes].
  assert (forall tail,
             (exists median, tail = [Printf "  中位区块时间: %s\n"
                                            [ADuration (Round median Millisecond)]])
             \/ tail = [] ->
             linesWith format
               ([ Printf "\n最近10个区块:\n" [];
                  Printf "  平均交易数: %.1f 笔\n"
                         [AFloat (PrimFloat.div (F64.of_int64 totalTxs) (F64.of_int64 10))];
                  Printf "  平均Gas使用: %s\n" [AText (formatGas (totalGas / 10))] ]
                ++ tail) = []
             \/ format = "\n最近10个区块:\n"%string
             \/ format = "  平均交易数: %.1f 笔\n"%string
             \/ format = "  平均Gas使用: %s\n"%string
             \/ format = "  中位区块时间: %s\n"%string) as Hshape.
  { intros tail Htail. unfold linesWith. cbn [flat_map app].
    destruct (String.eqb_spec "\n最近10个区块:\n" format) as [<-|_]; [tauto|].
    destruct (String.eqb_spec "  平均交易数: %.1f 笔\n" format) as [<-|_]; [tauto|].
    destruct (String.eqb_spec "  平均Gas使用: %s\n" format) as [<-|_]; [tauto|].
    destruct Htail as [[median ->]| ->]; cbn [flat_map app].
    - destruct (String.eqb_spec "  中位区块时间: %s\n" format) as [<-|_]; [tauto|].
      left. reflexivity.
    - left. reflexivity. }
  destruct (Z.ltb_spec 0 (len blockTimes)) as [Hsome|Hnone].
  - assert (blockTimes <> []) as Hne
        by (intros ->; unfold len in Hsome; simpl in Hsome; lia).
    destruct (middle_of_sorted blockTimes Hne) as (median & Hidx & _).
    rewrite Hidx. cbn [bind ret]. eexists. split; [reflexivity|].
    apply Hshape. left. eauto.
  - eexists. split; [reflexivity|]. rewrite <- (app_nil_r [_; _; _]).
    apply Hshape. right. reflexivity.
Qed.

(** *** The periodic and the final report of a session *)

Lemma linesWith_app (format : string) (a b : list Effect) :
  linesWith format (a ++ b) = linesWith format a ++ linesWith format b.
Proof. unfold linesWith. apply flat_map_app. Qed.

Lemma generateReport_range (m : BlockMonitor) (now : Time) :
  exists report,
    generateReport m now = ret report
    /\ linesWith "交易数范围: %d - %d 笔\n" report
       = if 0 <? BlockCount (stats m)
         then [[AInt (MinTxsPerBlock (stats m)); AInt (MaxTxsPerBlock (stats m))]]
         else [].
Proof.
  unfold generateReport.
  destruct (displayRecentBlocksStats_lines m "交易数范围: %d - %d 笔\n")
    as (recentLines & Hrun & Hshape).
  rewrite Hrun. cbn [bind ret]. eexists. split; [reflexivity|].
  destruct Hshape as [Hnone|[H|[H|[H|H]]]]; try discriminate H.
  rewrite !linesWith_app, Hnone.
  destruct (0 <? BlockCount (stats m)); destruct (0 <? AverageBlockTime (stats m));
    reflexivity.
Qed.

Lemma generateFinalReport_totals (m : BlockMonitor) (now : Time) :
  linesWith "处理区块总数: %d 个\n" (generateFinalReport m now)
  = [[AInt (BlockCount (stats m))]]
  /\ linesWith "处理交易总数: %d 笔\n" (generateFinalReport m now)
     = [[AInt (TotalTxs (stats m))]].
Proof.
  unfold generateFinalReport. rewrite !linesWith_app.
  destruct (0 <? BlockCount (stats m)); destruct (0 <? AverageBlockTime (stats m));
    split; reflexivity.
Qed.

Lemma session_BlockCount (now : Time) (events : list SubEvent) :
  len (handled events) <= maxInt64 ->
  BlockCount (stats (foldRecords (SetupAlertRules (NewBlockMonitor now)) (folded events)))
  = len (folded events).
Proof.
  intros Hlen.
  pose proof (folded_le_handled events) as Hle.
  pose proof (len_nonneg (folded events)) as Hf.
  rewrite foldRecords_BlockCount.
  - simpl. apply wrap_int64_id. unfold is_int64, minInt64, maxInt64 in *. lia.
  - simpl. unfold is_int64, minInt64, maxInt64. lia.
Qed.

(** The final report that [Stop] prints after a session states, once
    each, the number of records that were folded and the sum of their
    transaction counts (for a session of fewer than [2^63] notifications
    whose transaction counts add up within an [int64]). *)
Theorem final_report_states_the_totals_of_the_session :
  forall (now later : Time) (events : list SubEvent),
    len (handled events) <= maxInt64 ->
    total (map txCountOf (folded events)) <= maxInt64 ->
    exists m' out exit,
      Start (SetupAlertRules (NewBlockMonitor now)) (Ok events) = ret (m', out, exit)
      /\ linesWith "处理区块总数: %d 个\n" (snd (Stop m' later))
         = [[AInt (len (folded events))]]
      /\ linesWith "处理交易总数: %d 笔\n" (snd (Stop m' later))
         = [[AInt (total (map txCountOf (folded events)))]].
Proof.
  intros now later events Hlen Htxs.
  destruct (Start_folded (SetupAlertRules (NewBlockMonitor now)) events)
    as (out & exit & HStart).
  do 3 eexists. split; [exact HStart|].
  unfold Stop. cbn [snd].
  destruct (generateFinalReport_totals
              (cancel (foldRecords (SetupAlertRules (NewBlockMonitor now)) (folded events)))
              later) as [H1 H2].
  rewrite H1, H2. cbn [cancel stats].
  rewrite session_BlockCount by exact Hlen.
  destruct (foldRecords_totals (folded events) (SetupAlertRules (NewBlockMonitor now)))
    as [HT _]; [simpl; unfold is_int64, minInt64, maxInt64; lia|].
  rewrite HT. simpl TotalTxs. rewrite Z.add_0_l.
  rewrite wrap_int64_id; [split; reflexivity|].
  pose proof (total_nonneg _ (txCounts_nonneg (folded events))).
  unfold is_int64, minInt64, maxInt64 in *. lia.
Qed.

Lemma final_report_sample :
  exists m' out exit,
    Start (SetupAlertRules (NewBlockMonitor Samples.startOfSession))
          (Ok Samples.eventsWithFailure) = ret (m', out, exit)
    /\ linesWith "处理区块总数: %d 个\n" (snd (Stop m' Samples.after90s)) = [[AInt 2]]
    /\ linesWith "处理交易总数: %d 笔\n" (snd (Stop m' Samples.after90s)) = [[AInt 2]].
Proof.
  apply (final_report_states_the_totals_of_the_session
           Samples.startOfSession Samples.after90s Samples.eventsWithFailure).
  - vm_compute. discriminate.
  - vm_compute. discriminate.
Defined.

(** The periodic report never panics.  After a session in which no
    record was folded it leaves out the line with the range of the
    transaction counts, so the sentinel 999999 is not shown; once a
    record has been folded it shows that line once, with the smallest
    and the largest transaction count of the folded records (counts of
    at most 999999, fewer than [2^63] notifications). *)
Theorem periodic_report_shows_the_range_once_a_block_is_folded :
  forall (now later : Time) (events : list SubEvent),
    len (handled events) <= maxInt64 ->
    Forall (fun hb => txCountOf hb <= 999999) (folded events) ->
    exists m' out exit report,
      Start (SetupAlertRules (NewBlockMonitor now)) (Ok events) = ret (m', out, exit)
      /\ generateReport m' later = ret report
      /\ (folded events = [] -> linesWith "交易数范围: %d - %d 笔\n" report = [])
      /\ (folded events <> [] ->
          exists lo hi,
            linesWith "交易数范围: %d - %d 笔\n" report = [[AInt lo; AInt hi]]
            /\ is_min lo (map txCountOf (folded events))
            /\ is_max hi (map txCountOf (folded events))).
Proof.
  intros now later events Hlen Htxs.
  destruct (Start_folded (SetupAlertRules (NewBlockMonitor now)) events)
    as (out & exit & HStart).
  set (m' := foldRecords (SetupAlertRules (NewBlockMonitor now)) (folded events)) in *.
  destruct (generateReport_range m' later) as (report & Hreport & Hrange).
  exists m', out, exit, report. split; [exact HStart|]. split; [exact Hreport|].
  rewrite Hrange. unfold m'. rewrite session_BlockCount by exact Hlen.
  split.
  - intros Hnil. rewrite Hnil. reflexivity.
  - intros Hne.
    assert (0 < len (folded events)) as Hpos
        by (unfold len; destruct (folded events); [contradiction|simpl; lia]).
    destruct (Z.ltb_spec 0 (len (folded events))) as [_|Hno]; [|lia].
    do 2 eexists. split; [reflexivity|].
    destruct (foldRecords_extremes (folded events) (SetupAlertRules (NewBlockMonitor now)))
      as (H1 & H2 & _).
    assert (map txCountOf (folded events) <> []) as Hne1
        by (destruct (folded events); [contradiction|discriminate]).
    rewrite H1, H2. split.
    + apply running_min; [exact Hne1|]. apply Forall_map. exact Htxs.
    + apply running_max; [exact Hne1|].
      apply Forall_map, Forall_forall. intros hb _. apply len_nonneg.
Qed.

Lemma periodic_report_sample :
  exists m' out exit report,
    Start (SetupAlertRules (NewBlockMonitor Samples.startOfSession))
          (Ok Samples.eventsWithFailure) = ret (m', out, exit)
    /\ generateReport m' Samples.after90s = ret report
    /\ linesWith "交易数范围: %d - %d 笔\n" report = [[AInt 0; AInt 2]].
Proof.
  destruct (periodic_report_shows_the_range_once_a_block_is_folded
              Samples.startOfSession Samples.after90s Samples.eventsWithFailure)
    as (m' & out & exit & report & HStart & Hreport & _ & Hrange).
  - vm_compute. discriminate.
  - repeat constructor; vm_compute; discriminate.
  - exists m', out, exit, report. split; [exact HStart|]. split; [exact Hreport|].
    destruct Hrange as (lo & hi & Hlines & [Hlo_in Hlo] & [Hhi_in Hhi]);
      [simpl; discriminate|].
    rewrite Hlines.
    change (map txCountOf (folded Samples.eventsWithFailure)) with [2; 0]
      in Hlo_in, Hlo, Hhi_in, Hhi.
    inversion Hlo as [|? ? Hlo2 Hlo']; inversion Hlo' as [|? ? Hlo0 _]; subst.
    inversion Hhi as [|? ? Hhi2 Hhi']; inversion Hhi' as [|? ? Hhi0 _]; subst.
    assert (lo = 0) as -> by (destruct Hlo_in as [<-|[<-|[]]]; lia).
    assert (hi = 2) as -> by (destruct Hhi_in as [<-|[<-|[]]]; lia).
    reflexivity.
Defined.

End ReportFacts.

(** ** Subscriptions are released *)

Module ReleaseFacts.
Import GoInt GoTime Session Reports GoFacts MonitorFacts ReconnectFacts.
Import Subscribe.

Lemma unsubscribes_app (a b : list Effect) :
  unsubscribes (a ++ b) = (unsubscribes a + unsubscribes b)%nat.
Proof. unfold unsubscribes. rewrite filter_app, length_app. reflexivity. Qed.

Lemma lines_release_nothing (out : list Effect) :
  Forall isLine out -> unsubscribes out = 0%nat.
Proof.
  unfold unsubscribes. induction 1 as [|e out He _ IH]; simpl; [reflexivity|].
  destruct e; simpl in *; try contradiction; exact IH.
Qed.

Lemma monitorLoop_never_fatal (events : list SubEvent) :
  forall (m m' : Monitor.BlockMonitor) (out : list Effect) (exit : Exit),
    Monitor.monitorLoop m events = ret (m', out, exit) -> exit <> ExitFatal.
Proof.
  induction events as [|ev events IH]; intros m m' out exit Hloop.
  - simpl in Hloop. injection Hloop as _ _ <-. discriminate.
  - destruct ev as [msg|header fetched|].
    + simpl in Hloop. injection Hloop as _ _ <-. discriminate.
    + cbn [Monitor.monitorLoop] in Hloop.
      destruct (Monitor.processBlock m header fetched) as [[m1 out1]|];
        [|discriminate].
      cbn [bind fst snd] in Hloop.
      destruct (Monitor.monitorLoop m1 events) as [[[m2 out2] exit2]|] eqn:Hrest;
        [|discriminate].
      cbn [bind ret fst snd] in Hloop. injection Hloop as _ _ <-.
      eapply (IH m1). exact Hrest.
    + simpl in Hloop. injection Hloop as _ _ <-. discriminate.
Qed.

(** [Start] subscribes once.  When it returns after the subscription has
    failed or the context was cancelled, it has released the
    subscription exactly once; while its loop still waits, and when the
    node refused the subscription, it has released nothing. *)
Theorem start_releases_its_subscription_exactly_once :
  forall (m : Monitor.BlockMonitor) (subscription : Result (list SubEvent)),
    exists m' out exit,
      Monitor.Start m subscription = ret (m', out, exit)
      /\ subscriptions out = 1%nat
      /\ (unsubscribes out + pending exit = 1)%nat
      /\ (exit = ExitFatal <-> exists msg, subscription = Err msg).
Proof.
  intros m [events|msg].
  - destruct (monitorLoop_lines events m) as (m' & out & exit & Hloop & Hout).
    destruct (lines_subscriptions _ Hout) as [Hs _].
    pose proof (lines_release_nothing _ Hout) as Hu.
    pose proof (monitorLoop_never_fatal events m m' out exit Hloop) as Hexit.
    unfold Monitor.Start. rewrite Hloop. cbn [bind ret].
    do 3 eexists. split; [reflexivity|].
    rewrite !subscriptions_app, !unsubscribes_app, Hs, Hu.
    split; [destruct exit; reflexivity|].
    split; [destruct exit; try reflexivity; contradiction|].
    split; [intros ->; contradiction|intros [msg Hmsg]; discriminate].
  - simpl. do 3 eexists. split; [reflexivity|]. split; [reflexivity|].
    split; [reflexivity|]. split; [eauto|reflexivity].
Qed.

Lemma subscriptionLoop_lines (events : list SubEvent) (stats : BlockStats) :
  Forall isLine (snd (fst (subscriptionLoop stats events)))
  /\ snd (subscriptionLoop stats events) <> ExitFatal.
Proof.
  revert stats. induction events as [|ev events IH]; intros stats.
  - simpl. split; [constructor|discriminate].
  - destruct ev as [msg|header fetched|].
    + simpl. split; [repeat constructor|discriminate].
    + cbn [subscriptionLoop].
      pose proof (processNewHeader_lines header fetched stats) as Hl.
      destruct (processNewHeader header fetched stats) as [stats1 out1].
      destruct (IH stats1) as [Hout Hexit].
      destruct (subscriptionLoop stats1 events) as [[stats2 out2] exit].
      cbn [fst snd] in *. split; [apply Forall_app; split; assumption|exact Hexit].
    + simpl. split; [repeat constructor|discriminate].
Qed.

(** However often [subscribeNewHeads] subscribes again, it releases every
    subscription that has ended, each exactly once: the calls of
    [SubscribeNewHead] outnumber the releases by the one subscription
    that is still open, or that the node refused, and by nothing once the
    context is cancelled. *)
Theorem subscriber_releases_every_ended_subscription :
  forall (node : list (Result (list SubEvent))) (stats : BlockStats),
    subscriptions (snd (fst (subscribeNewHeads stats node)))
    = (unsubscribes (snd (fst (subscribeNewHeads stats node)))
       + pending (snd (subscribeNewHeads stats node)))%nat.
Proof.
  induction node as [|[events|msg] node IH]; intros stats.
  - reflexivity.
  - cbn [subscribeNewHeads].
    destruct (subscriptionLoop_lines events stats) as [Hout Hexit].
    destruct (subscriptionLoop stats events) as [[stats1 out1] exit1].
    cbn [fst snd] in Hout, Hexit.
    destruct (lines_subscriptions _ Hout) as [Hs _].
    pose proof (lines_release_nothing _ Hout) as Hu.
    destruct exit1; try contradiction.
    + specialize (IH stats1).
      destruct (subscribeNewHeads stats1 node) as [[stats2 out2] exit2].
      cbn [fst snd] in *.
      rewrite !subscriptions_app, !unsubscribes_app, Hs, Hu, IH. simpl. lia.
    + cbn [fst snd]. rewrite !subscriptions_app, !unsubscribes_app, Hs, Hu. reflexivity.
    + cbn [fst snd]. rewrite !subscriptions_app, !unsubscribes_app, Hs, Hu. reflexivity.
  - reflexivity.
Qed.

End ReleaseFacts.

(** ** A run of the polling monitor *)

Module PollRunFacts.
Import GoInt GoTime Format GoFacts.
Import Poll PollMain PollFacts.

Lemma upFrom_app (lo : Z) (a b : nat) :
  upFrom lo (a + b) = upFrom lo a ++ upFrom (lo + Z.of_nat a) b.
Proof.
  revert lo. induction a as [|a IH]; intros lo.
  - simpl. rewrite Z.add_0_r. reflexivity.
  - cbn [Nat.add]. rewrite !upFrom_S, IH. cbn [app].
    replace (lo + Z.of_nat (S a)) with (lo + 1 + Z.of_nat a) by lia. reflexivity.
Qed.

Lemma upFrom_above (lo : Z) (n : nat) : Forall (fun x => lo <= x) (upFrom lo n).
Proof.
  unfold upFrom. apply Forall_map, Forall_forall. intros i _. lia.
Qed.

Lemma upFrom_NoDup (lo : Z) (n : nat) : NoDup (upFrom lo n).
Proof.
  revert lo. induction n as [|n IH]; intros lo.
  - constructor.
  - rewrite upFrom_S. constructor; [|apply IH].
    intros Hin. pose proof (upFrom_above (lo + 1) n) as Habove.
    rewrite Forall_forall in Habove. specialize (Habove lo Hin). simpl in Habove. lia.
Qed.

(** One tick, whatever the node answers: the last seen number does not
    go back, and the blocks processed are those between the old and the
    new last seen number. *)
Lemma tick_advances (fuel : nat) (st : PollState) (node : Node) (now : Time) :
  0 <= lastBlockNumber st ->
  answersWithin fuel (TickEvent node now) ->
  exists st' out,
    tick fuel st node now
    = Some (st', upFrom (lastBlockNumber st + 1)
                        (Z.to_nat (lastBlockNumber st' - lastBlockNumber st)), out)
    /\ lastBlockNumber st <= lastBlockNumber st'
    /\ wrap_int64 (blockCount st')
       = wrap_int64 (blockCount st + (lastBlockNumber st' - lastBlockNumber st))
    /\ startTime st' = startTime st.
Proof.
  intros Hlast Hanswer. simpl in Hanswer.
  destruct (BlockNumber node) as [currentBlock|msg] eqn:Hnode.
  - destruct Hanswer as [Hrange Hfuel].
    destruct (Z.lt_ge_cases (lastBlockNumber st) currentBlock) as [Hnew|Hold].
    + destruct (tick_catches_up st node now currentBlock fuel Hnode)
        as (st' & out & Hrun & Hlast' & Hcount & _);
        [lia|lia|unfold missed; lia|].
      exists st', out. rewrite Hrun, Hlast'. unfold missed.
      split; [reflexivity|]. split; [lia|].
      split; [rewrite Hcount; apply wrap_int64_id, wrap_int64_range|].
      unfold tick in Hrun. rewrite Hnode in Hrun.
      destruct (lastBlockNumber st <? currentBlock); [|injection Hrun as <- _ _; reflexivity].
      destruct (catchUp _ _ _ _ _) as [[[c p] o]|]; [|discriminate].
      injection Hrun as <- _ _. reflexivity.
    + unfold tick. rewrite Hnode.
      destruct (Z.ltb_spec (lastBlockNumber st) currentBlock); [lia|].
      do 2 eexists. rewrite Z.sub_diag, Z.add_0_r. simpl.
      split; [reflexivity|]. split; [lia|]. split; reflexivity.
  - unfold tick. rewrite Hnode.
    do 2 eexists. rewrite Z.sub_diag, Z.add_0_r. simpl.
    split; [reflexivity|]. split; [lia|]. split; reflexivity.
Qed.

(** Over a whole run of the polling loop, whatever the ticks find
    (failed queries, no new block, a node that has gone back, several new
    blocks), the numbers handed to [processBlock] are exactly the numbers
    after the first last-seen block up to the final one, each once and in
    ascending order: no block is processed twice and none is left out,
    also when its fetch fails; the last seen number never goes back and
    the block count has grown by their number. *)
Theorem poll_run_processes_each_block_once_in_order :
  forall (fuel : nat) (events : list PollEvent) (st : PollState),
    0 <= lastBlockNumber st ->
    Forall (answersWithin fuel) events ->
    exists st' processed out returned,
      pollLoop fuel st events = Some (st', processed, out, returned)
      /\ lastBlockNumber st <= lastBlockNumber st'
      /\ processed = upFrom (lastBlockNumber st + 1)
                            (Z.to_nat (lastBlockNumber st' - lastBlockNumber st))
      /\ NoDup processed
      /\ wrap_int64 (blockCount st')
         = wrap_int64 (blockCount st + (lastBlockNumber st' - lastBlockNumber st)).
Proof.
  intros fuel events. induction events as [|ev events IH]; intros st Hlast Hall.
  - simpl. do 4 eexists. split; [reflexivity|]. rewrite Z.sub_diag, Z.add_0_r.
    split; [lia|]. split; [reflexivity|]. split; [constructor|reflexivity].
  - inversion Hall as [|? ? Hev Hrest]; subst.
    destruct ev as [node now|now].
    + destruct (tick_advances fuel st node now Hlast Hev)
        as (st1 & out1 & Hrun1 & Hle1 & Hcount1 & _).
      destruct (IH st1 ltac:(lia) Hrest)
        as (st2 & processed2 & out2 & returned & Hrun2 & Hle2 & Hproc2 & _ & Hcount2).
      cbn [pollLoop]. rewrite Hrun1, Hrun2.
      do 4 eexists. split; [reflexivity|]. split; [lia|].
      assert (upFrom (lastBlockNumber st + 1)
                     (Z.to_nat (lastBlockNumber st1 - lastBlockNumber st)) ++ processed2
              = upFrom (lastBlockNumber st + 1)
                       (Z.to_nat (lastBlockNumber st2 - lastBlockNumber st))) as Hall2.
      { rewrite Hproc2.
        replace (Z.to_nat (lastBlockNumber st2 - lastBlockNumber st))
          with (Z.to_nat (lastBlockNumber st1 - lastBlockNumber st)
                + Z.to_nat (lastBlockNumber st2 - lastBlockNumber st1))%nat by lia.
        rewrite upFrom_app. do 2 f_equal. lia. }
      rewrite Hall2. split; [reflexivity|]. split; [apply upFrom_NoDup|].
      rewrite Hcount2, <- wrap_int64_add_l, Hcount1, wrap_int64_add_l. f_equal. lia.
    + simpl. do 4 eexists. split; [reflexivity|]. rewrite Z.sub_diag, Z.add_0_r.
      split; [lia|]. split; [reflexivity|]. split; [constructor|reflexivity].
Qed.

Lemma poll_run_sample :
  exists st' out,
    pollLoop 200 Samples.pollAt100 RunSamples.pollRun
    = Some (st', [101; 102; 103; 104; 105], out, true)
    /\ lastBlockNumber st' = 105
    /\ blockCount st' = 5.
Proof.
  destruct (poll_run_processes_each_block_once_in_order
              200 RunSamples.pollRun Samples.pollAt100)
    as (st' & processed & out & returned & Hrun & _).
  - simpl. lia.
  - repeat constructor; simpl; unfold maxUint64; lia.
  - assert (option_map (fun r => (lastBlockNumber (fst (fst (fst r))),
                                  blockCount (fst (fst (fst r))),
                                  snd (fst (fst r)), snd r))
                       (pollLoop 200 Samples.pollAt100 RunSamples.pollRun)
            = Some (105, 5, [101; 102; 103; 104; 105], true)) as Hvalue
        by (vm_compute; reflexivity).
    rewrite Hrun in Hvalue. cbn [option_map fst snd] in Hvalue.
    injection Hvalue as H1 H2 H3 H4. subst processed returned.
    exists st', out. split; [exact Hrun|]. split; assumption.
Defined.

End PollRunFacts.

(** ** The transaction summary of the basic subscriber *)

Module SummaryFacts.
Import GoInt GoTime Format Session Reports GoFacts WindowFacts TotalsFacts ReportFacts.
Import SubscribeDisplay.

Lemma pricesOf_snoc (txs : list TxData) (t : TxData) :
  pricesOf (txs ++ [t])
  = pricesOf txs ++ match Types.GasPrice (tx t) with Some p => [p] | None => [] end.
Proof. unfold pricesOf. rewrite flat_map_app. simpl. rewrite app_nil_r. reflexivity. Qed.

Lemma summarize_step (acc : TxSummary) (t : TxData) :
  transferCount (summarize acc t) + contractCount (summarize acc t)
  = transferCount acc + contractCount acc + 1
  /\ totalValue (summarize acc t) = totalValue acc + Value t
  /\ totalGasFees (summarize acc t) = totalGasFees acc + feeOf t
  /\ maxGasPrice (summarize acc t)
     = match Types.GasPrice (tx t) with
       | Some p => Z.max (maxGasPrice acc) p
       | None => maxGasPrice acc
       end
  /\ minGasPrice (summarize acc t)
     = match Types.GasPrice (tx t), minGasPrice acc with
       | Some p, Some lowest => Some (Z.min lowest p)
       | Some p, None => Some p
       | None, lowest => lowest
       end.
Proof.
  unfold summarize, feeOf.
  destruct (Types.GasPrice (tx t)) as [p|]; destruct (Types.To (tx t));
    cbn [transferCount contractCount totalValue totalGasFees maxGasPrice minGasPrice];
    (split; [lia|]); (split; [lia|]); (split; [lia|]);
    rewrite ?SessionFacts.max_by_comparison; (split; [reflexivity|]);
    try reflexivity;
    destruct (minGasPrice acc) as [lowest|]; try reflexivity;
    destruct (Z.ltb_spec p lowest); f_equal; lia.
Qed.

(** What the loop of [analyzeTransactions] has computed after [txs]. *)
Lemma summarize_invariant (txs : list TxData) :
  transferCount (fold_left summarize txs emptySummary)
  + contractCount (fold_left summarize txs emptySummary) = len txs
  /\ totalValue (fold_left summarize txs emptySummary) = total (map Value txs)
  /\ totalGasFees (fold_left summarize txs emptySummary) = total (map feeOf txs)
  /\ maxGasPrice (fold_left summarize txs emptySummary) = fold_left Z.max (pricesOf txs) 0
  /\ minGasPrice (fold_left summarize txs emptySummary)
     = match pricesOf txs with
       | [] => None
       | p :: ps => Some (fold_left Z.min ps p)
       end.
Proof.
  induction txs as [|t txs (Hcount & Hvalue & Hfees & Hmax & Hmin)] using rev_ind.
  - simpl. repeat split.
  - rewrite fold_left_snoc.
    destruct (summarize_step (fold_left summarize txs emptySummary) t)
      as (S1 & S2 & S3 & S4 & S5).
    rewrite S1, S2, S3, S4, S5, Hcount, Hvalue, Hfees, Hmax, Hmin.
    rewrite len_app, !map_app, !total_app, pricesOf_snoc.
    split; [unfold len; simpl; lia|]. split; [simpl; lia|]. split; [simpl; lia|].
    destruct (Types.GasPrice (tx t)) as [p|].
    + rewrite fold_left_snoc. split; [reflexivity|].
      destruct (pricesOf txs) as [|q qs]; [reflexivity|].
      cbn [app]. rewrite fold_left_snoc. reflexivity.
    + rewrite app_nil_r. split; reflexivity.
Qed.

Lemma fold_min_is_min (ps : list Z) (p : Z) : is_min (fold_left Z.min ps p) (p :: ps).
Proof.
  unfold is_min. induction ps as [|q ps [Hin Hlb]] using rev_ind.
  - simpl. split; [left; reflexivity|]. constructor; [lia|constructor].
  - rewrite fold_left_snoc. set (M := fold_left Z.min ps p) in *.
    rewrite app_comm_cons. split.
    + apply in_or_app. destruct (Z.min_spec M q) as [[_ ->]|[_ ->]].
      * left. exact Hin.
      * right. left. reflexivity.
    + apply Forall_app. split.
      * eapply Forall_impl; [|exact Hlb]. simpl. intros; lia.
      * constructor; [lia|constructor].
Qed.

Lemma fold_max_bounds (ps : list Z) :
  0 <= fold_left Z.max ps 0
  /\ Forall (fun x => x <= fold_left Z.max ps 0) ps
  /\ (fold_left Z.max ps 0 = 0 \/ In (fold_left Z.max ps 0) ps).
Proof.
  induction ps as [|x ps (I1 & I2 & I3)] using rev_ind.
  - simpl. split; [lia|]. split; [constructor|left; reflexivity].
  - rewrite fold_left_snoc. set (M := fold_left Z.max ps 0) in *.
    split; [lia|]. split.
    + apply Forall_app. split.
      * eapply Forall_impl; [|exact I2]. simpl. intros; lia.
      * constructor; [lia|constructor].
    + destruct (Z.max_spec M x) as [[_ ->]|[_ ->]].
      * right. apply in_or_app. right. left. reflexivity.
      * destruct I3 as [I3|I3]; [left; exact I3|right; apply in_or_app; left; exact I3].
Qed.

Lemma fold_max_from_zero (ps : list Z) :
  Exists (fun p => 0 < p) ps ->
  0 < fold_left Z.max ps 0 /\ is_max (fold_left Z.max ps 0) ps.
Proof.
  intros Hex. destruct (fold_max_bounds ps) as (H0 & Hub & Hin).
  apply Exists_exists in Hex. destruct Hex as (p & Hp & Hpos).
  rewrite Forall_forall in Hub. pose proof (Hub p Hp) as Hle. simpl in Hle.
  split; [lia|]. split.
  - destruct Hin as [Hzero|Hin]; [lia|exact Hin].
  - apply Forall_forall. exact Hub.
Qed.

Lemma fold_max_without_positive (ps : list Z) :
  ~ Exists (fun p => 0 < p) ps -> fold_left Z.max ps 0 = 0.
Proof.
  induction ps as [|q ps IH] using rev_ind; intros Hno.
  - reflexivity.
  - rewrite fold_left_snoc, IH.
    + assert (~ 0 < q) by (intros Hq; apply Hno, Exists_app; right; left; exact Hq).
      lia.
    + intros Hex. apply Hno, Exists_app. left. exact Hex.
Qed.

Lemma analyzeTransactions_range (txs : list TxData) :
  linesWith "  • Gas 价格: %s - %s Gwei\n" (analyzeTransactions txs)
  = match minGasPrice (fold_left summarize txs emptySummary) with
    | Some lowest =>
        if 0 <? maxGasPrice (fold_left summarize txs emptySummary)
        then [[AText (formatGwei lowest);
               AText (formatGwei (maxGasPrice (fold_left summarize txs emptySummary)))]]
        else []
    | None => []
    end.
Proof.
  unfold analyzeTransactions. set (sum := fold_left summarize txs emptySummary).
  rewrite !linesWith_app.
  destruct (0 <? contractCount sum); destruct (0 <? totalValue sum);
    destruct (minGasPrice sum); destruct (0 <? maxGasPrice sum);
    destruct (0 <? totalGasFees sum); reflexivity.
Qed.

(** The summary that [analyzeTransactions] prints for a block: the
    numbers of calls and of contract creations add up to the number of
    transactions, the total value is the sum of the values and the total
    fee the sum of gas price times gas limit over the transactions that
    carry a gas price; the line with the range of gas prices is printed
    exactly when some transaction has a positive gas price, and then it
    shows the smallest and the largest gas price of the block. *)
Theorem transaction_summary_of_a_block :
  forall txs : list TxData,
    transferCount (fold_left summarize txs emptySummary)
    + contractCount (fold_left summarize txs emptySummary) = len txs
    /\ totalValue (fold_left summarize txs emptySummary) = total (map Value txs)
    /\ totalGasFees (fold_left summarize txs emptySummary) = total (map feeOf txs)
    /\ (~ Exists (fun p => 0 < p) (pricesOf txs) ->
        linesWith "  • Gas 价格: %s - %s Gwei\n" (analyzeTransactions txs) = [])
    /\ (Exists (fun p => 0 < p) (pricesOf txs) ->
        exists lo hi,
          linesWith "  • Gas 价格: %s - %s Gwei\n" (analyzeTransactions txs)
          = [[AText (formatGwei lo); AText (formatGwei hi)]]
          /\ is_min lo (pricesOf txs) /\ is_max hi (pricesOf txs) /\ lo <= hi).
Proof.
  intros txs.
  destruct (summarize_invariant txs) as (Hcount & Hvalue & Hfees & Hmax & Hmin).
  split; [exact Hcount|]. split; [exact Hvalue|]. split; [exact Hfees|].
  rewrite analyzeTransactions_range, Hmax, Hmin. split.
  - intros Hno. rewrite (fold_max_without_positive _ Hno).
    destruct (pricesOf txs); reflexivity.
  - intros Hex. destruct (fold_max_from_zero _ Hex) as [Hpos Hismax].
    destruct (pricesOf txs) as [|p ps] eqn:Hprices; [inversion Hex|].
    destruct (Z.ltb_spec 0 (fold_left Z.max (p :: ps) 0)) as [_|Hno]; [|lia].
    do 2 eexists. split; [reflexivity|].
    pose proof (fold_min_is_min ps p) as Hismin.
    split; [exact Hismin|]. split; [exact Hismax|].
    eapply SessionFacts.min_le_max; eassumption.
Qed.

End SummaryFacts.

(** ** The average gas price of a block *)

Module GasPriceFacts.
Import GoInt GoTime Monitor Session Reports GoFacts MonitorFacts TotalsFacts AverageFacts.

Lemma sumGasPrices_exact (txs : list Types.Transaction) :
  forall total0 count0 : Z,
    sumGasPrices txs total0 count0
    = (total0 + total (gasPrices txs), count0 + len (gasPrices txs)).
Proof.
  induction txs as [|tx txs IH]; intros total0 count0.
  - simpl. rewrite !Z.add_0_r. reflexivity.
  - cbn [sumGasPrices]. unfold gasPrices in *. cbn [flat_map].
    destruct (Types.GasPrice tx) as [p|].
    + rewrite IH, total_app, len_app. cbn [total fold_right].
      change (len [p]) with 1. f_equal; lia.
    + rewrite IH. reflexivity.
Qed.

(** For a block in which some transaction carries a gas price, the
    average gas price is the sum of the gas prices carried, divided by
    their number and rounded down (transactions without a gas price do
    not count); it lies between the smallest and the largest of them. *)
Theorem average_gas_price_is_the_mean_of_the_prices :
  forall txs : list Types.Transaction,
    gasPrices txs <> [] ->
    calculateAverageGasPrice txs = ret (total (gasPrices txs) / len (gasPrices txs))
    /\ forall lo hi,
        is_min lo (gasPrices txs) -> is_max hi (gasPrices txs) ->
        lo <= total (gasPrices txs) / len (gasPrices txs) <= hi.
Proof.
  intros txs Hne.
  assert (0 < len (gasPrices txs)) as Hlen
      by (unfold len; destruct (gasPrices txs); [contradiction|simpl; lia]).
  split.
  - rewrite calculateAverageGasPrice_mean. unfold meanGasPrice.
    rewrite sumGasPrices_exact, !Z.add_0_l.
    destruct (Z.eqb_spec (len (gasPrices txs)) 0); [lia|reflexivity].
  - intros lo hi [_ Hlo] [_ Hhi].
    destruct (total_between lo hi (gasPrices txs) Hlo Hhi) as [Hb1 Hb2]. split.
    + apply Z.div_le_lower_bound; [exact Hlen|exact Hb1].
    + apply Z.div_le_upper_bound; [exact Hlen|exact Hb2].
Qed.

Lemma average_gas_price_of_block101 :
  calculateAverageGasPrice (Types.Transactions Samples.block101) = ret 25000000000.
Proof.
  destruct (average_gas_price_is_the_mean_of_the_prices
              (Types.Transactions Samples.block101)) as [Hmean _].
  - simpl. discriminate.
  - rewrite Hmean. vm_compute. reflexivity.
Defined.

End GasPriceFacts.

(** ** The final statistics of the basic subscriber *)

Module FinalStatsFacts.
Import GoInt GoTime Format Session Reports GoFacts TotalsFacts ReportFacts.
Import Subscribe SubscribeDisplay.




End FinalStatsFacts.
